(** * TruLens: OTEL session bootstrap, cost hooks, Snowflake enums

    A shallow embedding of

    - [connectors/snowflake/dao/enums.py]             (module [Enums]),
    - [experimental/otel_tracing/core/session.py]     (module [Session]),
    - the instrumentation wrapper and name resolver exercised by
      [tests/unit/test_otel_instrument.py]            (module [Instrument]),

    followed by the properties established about them.  Python effects are
    made explicit: exceptions are a [Result], mutable process state is
    threaded through a small state-and-exception monad in which the state
    survives a raised exception. *)

From stdpp Require Import gmap strings list fin_maps.

Open Scope string_scope.

(* ===================================================================== *)
(** * Python values, exceptions and the effect monad                      *)
(* ===================================================================== *)

Module Py.

(** The Python values that flow through the modelled code.  A member of a
    [class C(str, Enum)] is a [str] instance carrying its value; any other
    object is opaque and known by its class and identity. *)
Inductive PyVal :=
| PyNone
| PyBool (b : bool)
| PyInt (z : Z)
| PyStr (s : string)
| PyEnumStr (cls member value : string)
| PyObject (cls : string) (id : nat).

#[export] Instance PyVal_eq_dec : EqDecision PyVal.
Proof. solve_decision. Defined.

(** [str(...)] content of values whose class derives from [str]. *)
Definition str_content (v : PyVal) : option string :=
  match v with
  | PyStr s => Some s
  | PyEnumStr _ _ s => Some s
  | _ => None
  end.

(** Numeric reading of [int] and [bool] ([True == 1]). *)
Definition num_content (v : PyVal) : option Z :=
  match v with
  | PyInt z => Some z
  | PyBool b => Some (if b then 1%Z else 0%Z)
  | _ => None
  end.

(** Python [a == b]. *)
Definition py_eq (a b : PyVal) : bool :=
  match a, b with
  | PyNone, PyNone => true
  | PyObject _ i, PyObject _ j => bool_decide (i = j)
  | _, _ =>
    match str_content a, str_content b with
    | Some s, Some t => bool_decide (s = t)
    | _, _ =>
      match num_content a, num_content b with
      | Some x, Some y => bool_decide (x = y)
      | _, _ => false
      end
    end
  end.

(** Python [key in values]: some element is identical or equal to [key].
    For the values above identity implies equality, so the equality test
    decides membership. *)
Definition py_contains (key : PyVal) (values : list PyVal) : bool :=
  existsb (fun v => py_eq v key) values.

(** The dict comprehension [{prefix + k: v for k, v in d.items()}]. *)
Definition dict_prefix_keys (prefix : string) (d : gmap string PyVal)
  : gmap string PyVal :=
  list_to_map ((fun kv => (prefix +:+ kv.1, kv.2)) <$> map_to_list d).

(** A raised exception: its class name and message. *)
Record PyExc := { exc_class : string; exc_msg : string }.

Definition ValueError (msg : string) : PyExc :=
  {| exc_class := "ValueError"; exc_msg := msg |}.

Inductive Result (A : Type) :=
| Ok (a : A)
| Raise (e : PyExc).
Arguments Ok {A} a.
Arguments Raise {A} e.

(** Computations over a mutable state [S] that may raise.  The state is
    returned in both outcomes: what was mutated before a [raise] stays
    mutated. *)
Definition M (S A : Type) : Type := S -> Result A * S.

Definition ret {S A} (a : A) : M S A := fun s => (Ok a, s).

Definition bind {S A B} (m : M S A) (k : A -> M S B) : M S B :=
  fun s =>
    match m s with
    | (Ok a, s') => k a s'
    | (Raise e, s') => (Raise e, s')
    end.

Definition raise {S A} (e : PyExc) : M S A := fun s => (Raise e, s).

Definition gets {S A} (f : S -> A) : M S A := fun s => (Ok (f s), s).

Definition modify {S} (f : S -> S) : M S unit := fun s => (Ok tt, f s).

(** Statement-level [for x in xs: body]. *)
Fixpoint for_each {S A} (xs : list A) (body : A -> M S unit) : M S unit :=
  match xs with
  | [] => ret tt
  | x :: xs' => bind (body x) (fun _ => for_each xs' body)
  end.

#[export] Instance M_ret {S} : MRet (M S) := fun A => @ret S A.
#[export] Instance M_bind {S} : MBind (M S) := fun A B k m => @bind S A B m k.

End Py.

Import Py.

(* ===================================================================== *)
(** * connectors/snowflake/dao/enums.py                                   *)
(* ===================================================================== *)

Module Enums.

(** [class ObjectType(str, Enum): EXTERNAL_AGENT = "EXTERNAL AGENT"] *)
Definition EXTERNAL_AGENT : PyVal :=
  PyEnumStr "ObjectType" "EXTERNAL_AGENT" "EXTERNAL AGENT".

(** [ObjectType.__members__]: member name to member, in definition order. *)
Definition __members__ : list (string * PyVal) :=
  [("EXTERNAL_AGENT", EXTERNAL_AGENT)].

(** [return key in cls.__members__.values()] *)
Definition is_valid_object (key : PyVal) : bool :=
  py_contains key (__members__.*2).

End Enums.

(* ===================================================================== *)
(** * experimental/otel_tracing/core/session.py                           *)
(* ===================================================================== *)

Module Session.

Definition TRULENS_SERVICE_NAME : string := "trulens".

(** ** The OpenTelemetry objects the module manipulates *)

(** Objects are known by identity: a reference into the process heap. *)
Definition ref := nat.

Record Resource := { resource_attributes : gmap string string }.

(** What [exporter] can be bound to in [_set_up_otel_exporter]: [None], the
    session's own [TruLensOTELSpanExporter(connector)] (the default, a
    [SpanExporter] like any exporter handed to [BatchSpanProcessor]), or any
    other object, of which the code only observes its class, its truth
    value ([not exporter]) and [isinstance(exporter, SpanExporter)]. *)
Definition DBConnector := string.

Inductive ExporterVal :=
| ENone
| TruLensOTELSpanExporter (connector : DBConnector)
| EObject (cls : string) (truthy is_span_exporter : bool).

(** [BatchSpanProcessor(exporter)] and [SimpleSpanProcessor(exporter)] of
    [opentelemetry.sdk.trace.export]. *)
Inductive SpanProcessor :=
| BatchSpanProcessor (exporter : ExporterVal)
| SimpleSpanProcessor (exporter : ExporterVal).

(** Heap objects that [trace.get_tracer_provider()] can hand back: an SDK
    [TracerProvider] with its resource and registered processors, or a
    provider of some other class. *)
Inductive Obj :=
| TracerProvider (resource : Resource) (processors : list SpanProcessor)
| ForeignProvider (cls : string).

(** ** Collaborators outside the module

    [Resource.create] completes the given attributes with the SDK's
    defaults; the two text helpers ([text_utils.UNICODE_CHECK],
    [python_utils.class_name]) only feed the log line. *)
Class Externals := {
  resource_defaults : gmap string string;
  UNICODE_CHECK : string;
  class_name : string -> string;
}.

(** The process state the module reads and writes: the object heap, the
    two module globals of [opentelemetry.trace] (the installed provider, if
    any, and the API's proxy provider) and the records sent to the module's
    [logger]. *)
Record Process := {
  heap : gmap ref Obj;
  _TRACER_PROVIDER : option ref;
  _PROXY_TRACER_PROVIDER : ref;
  log_records : list string;
}.

Definition set_heap (h : gmap ref Obj) (p : Process) : Process :=
  {| heap := h; _TRACER_PROVIDER := _TRACER_PROVIDER p;
     _PROXY_TRACER_PROVIDER := _PROXY_TRACER_PROVIDER p;
     log_records := log_records p |}.

(** [logger.info(msg)] *)
Definition logger_info (msg : string) : M Process unit :=
  modify (fun p => {| heap := heap p; _TRACER_PROVIDER := _TRACER_PROVIDER p;
                      _PROXY_TRACER_PROVIDER := _PROXY_TRACER_PROVIDER p;
                      log_records := (log_records p ++ [msg])%list |}).

(** Constructing an object allocates it at an unused reference. *)
Definition new_object (o : Obj) : M Process ref :=
  fun p => let r := fresh (dom (heap p)) in (Ok r, set_heap (<[r := o]> (heap p)) p).

(** [opentelemetry.trace.set_tracer_provider(provider)]: the API installs a
    global provider once; a call made while one is installed leaves the
    global untouched (the API only warns, on a logger of its own, that
    overriding the current provider is not allowed). *)
Definition set_tracer_provider (provider : ref) : M Process unit :=
  modify (fun p =>
    match _TRACER_PROVIDER p with
    | None => {| heap := heap p; _TRACER_PROVIDER := Some provider;
                 _PROXY_TRACER_PROVIDER := _PROXY_TRACER_PROVIDER p;
                 log_records := log_records p |}
    | Some _ => p
    end).

(** [opentelemetry.trace.get_tracer_provider()]: the installed provider, or
    the API's proxy provider while nothing is installed. *)
Definition get_tracer_provider : M Process ref :=
  gets (fun p => default (_PROXY_TRACER_PROVIDER p) (_TRACER_PROVIDER p)).

(** [Resource.create(attributes)]: the given attributes take precedence over
    the defaults. *)
Definition Resource_create `{Externals} (attributes : gmap string string) : Resource :=
  {| resource_attributes := attributes ∪ resource_defaults |}.

(** [isinstance(obj, TracerProvider)] for the object a reference points to. *)
Definition isinstance_TracerProvider (h : gmap ref Obj) (r : ref) : bool :=
  match h !! r with
  | Some (TracerProvider _ _) => true
  | _ => false
  end.

(** [provider.add_span_processor(processor)] *)
Definition add_span_processor (provider : ref) (processor : SpanProcessor)
  : M Process unit :=
  modify (fun p =>
    match heap p !! provider with
    | Some (TracerProvider res procs) =>
        set_heap (<[provider := TracerProvider res (procs ++ [processor])%list]> (heap p)) p
    | _ => p
    end).

(** ** [_set_up_tracer_provider] (lines 24-32) *)
Definition _set_up_tracer_provider `{Externals} : M Process ref :=
  let resource := Resource_create {[ "service.name" := TRULENS_SERVICE_NAME ]} in
  provider ← new_object (TracerProvider resource []);
  set_tracer_provider provider;;
  global_tracer_provider ← get_tracer_provider;
  is_sdk ← gets (fun p => isinstance_TracerProvider (heap p) global_tracer_provider);
  if negb is_sdk
  then raise (ValueError "Received a TracerProvider of an unexpected type!")
  else mret global_tracer_provider.

(** ** [_can_import] (lines 35-40) *)

(** What importing a module does in the running interpreter: it succeeds, it
    raises an [ImportError] (or a subclass), or it raises something else. *)
Inductive ImportOutcome :=
| Imported
| RaisesImportError (e : PyExc)
| RaisesOther (e : PyExc).

Inductive SdkModule := mod_openai | mod_resources | mod_chat.

(** A class object: [hasattr(cls, a)] holds for the names in [class_attrs]. *)
Record PyClass := { class_qualname : string; class_attrs : list string }.

(** What a module attribute can be: a class ([isinstance(obj, type)]) or
    anything else. *)
Inductive ModuleAttr :=
| AttrClass (c : PyClass)
| AttrOther (v : PyVal).

Inductive CostComputer := CortexCostComputer | OpenAICostComputer.

(** The interpreter and the packages around [_track_costs]: the import
    system, the SDK modules' contents, [python_utils.safer_getattr] (the
    attribute, or [None]), the providers' [handle_response], and the
    [BASE_SCOPE] constant of [trulens.otel.semconv.trace]. *)
Record PyEnv := {
  BASE_SCOPE : string;
  import_outcome : string -> ImportOutcome;
  SSEClient : PyClass;
  module_dir : SdkModule -> list string;
  safer_getattr : SdkModule -> string -> option ModuleAttr;
  handle_response : CostComputer -> PyVal -> gmap string PyVal;
}.

Definition _can_import {S} (env : PyEnv) (to_import : string) : M S bool :=
  match import_outcome env to_import with
  | Imported => mret true
  | RaisesImportError _ => mret false
  | RaisesOther e => raise e
  end.

(** An [import] statement outside any [try]. *)
Definition py_import {S} (env : PyEnv) (name : string) : M S unit :=
  match import_outcome env name with
  | Imported => mret tt
  | RaisesImportError e => raise e
  | RaisesOther e => raise e
  end.

(** ** [_TruSession._track_costs] (lines 78-130) *)

(** [SpanAttributes.SpanType]; only [UNKNOWN] occurs in the module. *)
Inductive SpanType := UNKNOWN | SpanTypeOther (value : string).

(** The [lambda ret, exception, *args, **kwargs: {...}] built in
    [_track_costs], as the closure it is: the code of the comprehension with
    the values of its two free variables, [cost_attributes_prefix] (assigned
    the same string wherever it is assigned) and the cost computer class. *)
Record CostLambda := {
  captured_prefix : string;
  captured_computer : CostComputer;
}.

(** [{cost_attributes_prefix + k: v for k, v in
      Computer.handle_response(ret).items()}] *)
Definition call_cost_lambda (env : PyEnv) (f : CostLambda)
    (ret : PyVal) (exception : option PyExc)
    (args : list PyVal) (kwargs : gmap string PyVal) : gmap string PyVal :=
  dict_prefix_keys (captured_prefix f)
    (handle_response env (captured_computer f) ret).

(** One call [instrument_method(cls, name, span_type=..,
    full_scoped_attributes=.., must_be_first_wrapper=..)]. *)
Record InstrumentMethodCall := {
  target_class : PyClass;
  method_name : string;
  span_type : SpanType;
  full_scoped_attributes : CostLambda;
  must_be_first_wrapper : bool;
}.

(** [instrument_method] lives in [core/instrument.py]; a call to it is
    recorded, in order, with its arguments. *)
Definition Registry := list InstrumentMethodCall.

Definition instrument_method (cls : PyClass) (name : string) (st : SpanType)
    (attrs : CostLambda) (first : bool) : M Registry unit :=
  modify (fun calls : Registry =>
    (calls ++ [{| target_class := cls; method_name := name; span_type := st;
                  full_scoped_attributes := attrs;
                  must_be_first_wrapper := first |}])%list).

(** [hasattr(obj, "create")] *)
Definition hasattr (c : PyClass) (name : string) : bool :=
  bool_decide (name ∈ class_attrs c).

(** Body of [if _can_import("trulens.providers.cortex.endpoint"):]. *)
Definition cortex_hook (env : PyEnv) : M Registry unit :=
  py_import env "snowflake.cortex._sse_client";;
  py_import env "trulens.experimental.otel_tracing.core.instrument";;
  py_import env "trulens.providers.cortex.endpoint";;
  let cost_attributes_prefix := BASE_SCOPE env +:+ ".costs." in
  instrument_method (SSEClient env) "events" UNKNOWN
    {| captured_prefix := cost_attributes_prefix;
       captured_computer := CortexCostComputer |}
    true.

(** Body of the innermost loop: one attribute name of one module. *)
Definition openai_visit (env : PyEnv) (module : SdkModule) (cls : string)
  : M Registry unit :=
  let obj := safer_getattr env module cls in
  match obj with
  | Some (AttrClass c) =>
      if hasattr c "create"
      then
        let cost_attributes_prefix := BASE_SCOPE env +:+ ".costs." in
        instrument_method c "create" UNKNOWN
          {| captured_prefix := cost_attributes_prefix;
             captured_computer := OpenAICostComputer |}
          true
      else mret tt
  | _ => mret tt
  end.

(** Body of [if _can_import("trulens.providers.openai.endpoint"):]. *)
Definition openai_hook (env : PyEnv) : M Registry unit :=
  py_import env "openai";;
  py_import env "openai.resources";;
  py_import env "openai.resources.chat";;
  py_import env "trulens.experimental.otel_tracing.core.instrument";;
  py_import env "trulens.providers.openai.endpoint";;
  for_each [mod_openai; mod_resources; mod_chat] (fun module =>
    for_each (module_dir env module) (fun cls => openai_visit env module cls)).

(** [if _can_import("trulens.providers.cortex.endpoint"): ...] *)
Definition cortex_block (env : PyEnv) : M Registry unit :=
  can ← _can_import env "trulens.providers.cortex.endpoint";
  if can : bool then cortex_hook env else mret tt.

(** [if _can_import("trulens.providers.openai.endpoint"): ...] *)
Definition openai_block (env : PyEnv) : M Registry unit :=
  can ← _can_import env "trulens.providers.openai.endpoint";
  if can : bool then openai_hook env else mret tt.

Definition _track_costs (env : PyEnv) : M Registry unit :=
  cortex_block env;;
  openai_block env.

(** ** [_TruSession._set_up_otel_exporter] (lines 44-76) *)

(** [core_experimental.Feature]; only [OTEL_TRACING] occurs in the module. *)
Inductive Feature := OTEL_TRACING | FeatureOther (name : string).

#[export] Instance Feature_eq_dec : EqDecision Feature.
Proof. solve_decision. Defined.

Record FlagState := { flag_value : bool; flag_frozen : bool }.

(** The attributes of [self] the method touches; an attribute not yet
    assigned is [None]. *)
Record TruSession := {
  experimental_flags : Feature -> FlagState;
  _experimental_otel_exporter : option ExporterVal;
  _experimental_tracer_provider : option ref;
  _experimental_otel_span_processor : option SpanProcessor;
}.

(** Modelled from the spec: [TruSession._experimental_feature] belongs to the
    parent class in [trulens.core.session], which is not among the sources.
    The call [(flag=.., value=.., freeze=..)] gives the flag that value and,
    with [freeze], pins it. *)
Definition _experimental_feature (flag : Feature) (value freeze : bool)
    (self : TruSession) : TruSession :=
  {| experimental_flags := fun f =>
       if decide (f = flag)
       then {| flag_value := value;
               flag_frozen := freeze || flag_frozen (experimental_flags self f) |}
       else experimental_flags self f;
     _experimental_otel_exporter := _experimental_otel_exporter self;
     _experimental_tracer_provider := _experimental_tracer_provider self;
     _experimental_otel_span_processor := _experimental_otel_span_processor self |}.

Definition set_otel_exporter (e : ExporterVal) (self : TruSession) : TruSession :=
  {| experimental_flags := experimental_flags self;
     _experimental_otel_exporter := Some e;
     _experimental_tracer_provider := _experimental_tracer_provider self;
     _experimental_otel_span_processor := _experimental_otel_span_processor self |}.

Definition set_tracer_provider_attr (r : ref) (self : TruSession) : TruSession :=
  {| experimental_flags := experimental_flags self;
     _experimental_otel_exporter := _experimental_otel_exporter self;
     _experimental_tracer_provider := Some r;
     _experimental_otel_span_processor := _experimental_otel_span_processor self |}.

Definition set_span_processor_attr (sp : SpanProcessor) (self : TruSession) : TruSession :=
  {| experimental_flags := experimental_flags self;
     _experimental_otel_exporter := _experimental_otel_exporter self;
     _experimental_tracer_provider := _experimental_tracer_provider self;
     _experimental_otel_span_processor := Some sp |}.

(** Truth value of the object bound to [exporter]. *)
Definition truthy (e : ExporterVal) : bool :=
  match e with
  | ENone => false
  | TruLensOTELSpanExporter _ => true
  | EObject _ t _ => t
  end.

(** [isinstance(exporter, otel_export_sdk.SpanExporter)] *)
Definition isinstance_SpanExporter (e : ExporterVal) : bool :=
  match e with
  | ENone => false
  | TruLensOTELSpanExporter _ => true
  | EObject _ _ i => i
  end.

(** [exporter.__class__] *)
Definition class_of (e : ExporterVal) : string :=
  match e with
  | ENone => "NoneType"
  | TruLensOTELSpanExporter _ => "TruLensOTELSpanExporter"
  | EObject cls _ _ => cls
  end.

(** Statements on [self] and on the rest of the process, inside a method. *)
Definition on_self (f : TruSession -> TruSession) : M (TruSession * Process) unit :=
  modify (fun st => (f st.1, st.2)).

Definition on_process {A} (m : M Process A) : M (TruSession * Process) A :=
  fun st => let '(r, p) := m st.2 in (r, (st.1, p)).

Definition _set_up_otel_exporter `{Externals}
    (connector : DBConnector) (exporter : ExporterVal)
  : M (TruSession * Process) unit :=
  on_self (_experimental_feature OTEL_TRACING true true);;
  on_process (logger_info
    (UNICODE_CHECK +:+ " OpenTelemetry exporter set: " +:+ class_name (class_of exporter)));;
  let exporter :=
    if negb (truthy exporter) then TruLensOTELSpanExporter connector else exporter in
  on_self (set_otel_exporter exporter);;
  tracer_provider ← on_process _set_up_tracer_provider;
  on_self (set_tracer_provider_attr tracer_provider);;
  if truthy exporter && negb (isinstance_SpanExporter exporter)
  then raise (ValueError "Provided exporter must be an OpenTelemetry SpanExporter")
  else
    let processor := BatchSpanProcessor exporter in
    on_self (set_span_processor_attr processor);;
    on_process (add_span_processor tracer_provider processor).

(** ** Vocabulary for the statements below *)

(** The resource [_set_up_tracer_provider] builds. *)
Definition trulens_resource `{Externals} : Resource :=
  Resource_create {[ "service.name" := TRULENS_SERVICE_NAME ]}.

(** The module a provider is probed by, and the modules its block goes on
    to import. *)
Definition probe_module (c : CostComputer) : string :=
  match c with
  | CortexCostComputer => "trulens.providers.cortex.endpoint"
  | OpenAICostComputer => "trulens.providers.openai.endpoint"
  end.

Definition hook_modules (c : CostComputer) : list string :=
  match c with
  | CortexCostComputer =>
      ["snowflake.cortex._sse_client";
       "trulens.experimental.otel_tracing.core.instrument"]
  | OpenAICostComputer =>
      ["openai"; "openai.resources"; "openai.resources.chat";
       "trulens.experimental.otel_tracing.core.instrument"]
  end.

(** A provider's package is importable: the probe and the imports of its
    block succeed.  It is missing: the probe raises [ImportError]. *)
Definition provider_importable (env : PyEnv) (c : CostComputer) : Prop :=
  Forall (fun name => import_outcome env name = Imported)
    (probe_module c :: hook_modules c).

Definition provider_missing (env : PyEnv) (c : CostComputer) : Prop :=
  exists e, import_outcome env (probe_module c) = RaisesImportError e.

Definition provider_block (c : CostComputer) : PyEnv -> M Registry unit :=
  match c with
  | CortexCostComputer => cortex_block
  | OpenAICostComputer => openai_block
  end.

Definition other_provider (c : CostComputer) : CostComputer :=
  match c with
  | CortexCostComputer => OpenAICostComputer
  | OpenAICostComputer => CortexCostComputer
  end.

(** The registration a cost hook asks for. *)
Definition cost_registration (env : PyEnv) (c : CostComputer)
    (cls : PyClass) (name : string) : InstrumentMethodCall :=
  {| target_class := cls; method_name := name; span_type := UNKNOWN;
     full_scoped_attributes :=
       {| captured_prefix := BASE_SCOPE env +:+ ".costs.";
          captured_computer := c |};
     must_be_first_wrapper := true |}.

(** The classes with a ["create"] attribute among the attributes of a
    module, in [dir] order. *)
Definition create_class (env : PyEnv) (module : SdkModule) (name : string)
  : option PyClass :=
  match safer_getattr env module name with
  | Some (AttrClass c) => if hasattr c "create" then Some c else None
  | _ => None
  end.

Definition create_classes (env : PyEnv) (module : SdkModule) : list PyClass :=
  omap (create_class env module) (module_dir env module).

(** The response-producing methods of each provider's SDK. *)
Definition known_methods (env : PyEnv) (c : CostComputer)
  : list (PyClass * string) :=
  match c with
  | CortexCostComputer => [(SSEClient env, "events")]
  | OpenAICostComputer =>
      (fun cls => (cls, "create")) <$>
        (create_classes env mod_openai ++ create_classes env mod_resources ++
         create_classes env mod_chat)%list
  end.

Definition expected_registrations (env : PyEnv) (c : CostComputer) : Registry :=
  (fun m => cost_registration env c m.1 m.2) <$> known_methods env c.

(** What [_track_costs] is to register for a provider: the expected
    registrations when the probe succeeds, none otherwise. *)
Definition probe_succeeds (env : PyEnv) (c : CostComputer) : bool :=
  match import_outcome env (probe_module c) with
  | Imported => true
  | _ => false
  end.

Definition registrations_for (env : PyEnv) (c : CostComputer) : Registry :=
  if probe_succeeds env c then expected_registrations env c else [].

(** The reference at which the next object of a process is allocated. *)
Definition next_ref (w : Process) : ref := fresh (dom (heap w)).

(** The process once the body of [_set_up_tracer_provider] has run: the new
    provider is on the heap, and it is the global one if none was before. *)
Definition after_set_up `{Externals} (w : Process) : Process :=
  {| heap := <[next_ref w := TracerProvider trulens_resource []]> (heap w);
     _TRACER_PROVIDER := Some (default (next_ref w) (_TRACER_PROVIDER w));
     _PROXY_TRACER_PROVIDER := _PROXY_TRACER_PROVIDER w;
     log_records := log_records w |}.

End Session.

(* ===================================================================== *)
(** * The instrumentation wrapper and the name resolver                   *)
(* ===================================================================== *)

Module Instrument.

(** ** Function Name Resolver *)

(** A function object as the resolver sees it: the module that declares it,
    the class it is bound to (if any), the scopes that enclose its
    definition (with the synthetic marker ["<locals>"]) and its own name
    (["<lambda>"] for a lambda). *)
Record FunctionObject := {
  fn_module : string;
  fn_class : option string;
  fn_scope : list string;
  fn_name : string;
}.

(** A callable is a function object, possibly behind wrapper objects that
    live in modules of their own. *)
Inductive Callable :=
| Function (f : FunctionObject)
| Wrapper (wrapper_module : string) (wrapped : Callable).

Fixpoint underlying (c : Callable) : FunctionObject :=
  match c with
  | Function f => f
  | Wrapper _ c' => underlying c'
  end.

(** Modelled from the spec: [_get_func_name] of [core/instrument.py], which
    is not among the sources.  The name is
    [<module-or-package-path>.<enclosing-class-if-bound>.<qualified-function-path>],
    read off the underlying function object, not off a wrapper. *)
Definition _get_func_name (c : Callable) : string :=
  let f := underlying c in
  String.concat "."
    (fn_module f :: option_list (fn_class f) ++ fn_scope f ++ [fn_name f])%list.

(** ** Spans and the tracing state *)

Inductive Status := StatusOK | StatusERROR (message : string).

Record Span := {
  span_name : string;
  start_time : nat;
  end_time : nat;
  span_attributes : gmap string PyVal;
  span_status : Status;
  span_parent : option nat;
}.

(** [SpanAttributes.SpanType] with the string each kind contributes to an
    attribute key. *)
Definition span_kind_scope (k : Session.SpanType) : string :=
  match k with
  | Session.UNKNOWN => "unknown"
  | Session.SpanTypeOther v => v
  end.

(** The tracing side of the process: the mode toggle, the base scope of
    attribute keys, a logical clock, the span now open on the calling task
    (with the next span identifier), what the in-memory exporter holds, and
    the log. *)
Record Tracing := {
  otel_tracing : bool;
  base_scope : string;
  clock : nat;
  active_span : option nat;
  next_span_id : nat;
  finished_spans : list Span;
  warnings : list string;
}.

(** How a call ended, as the extractor receives it: [(result, error)]. *)
Definition outcome_result (r : Result PyVal) : PyVal :=
  match r with Ok v => v | Raise _ => PyNone end.

Definition outcome_error (r : Result PyVal) : option PyExc :=
  match r with Ok _ => None | Raise e => Some e end.

(** [instrument]'s configuration. *)
Record Config := {
  spanName : option string;
  spanKind : Session.SpanType;
  attributeExtractor :
    PyVal -> option PyExc -> list PyVal -> gmap string PyVal ->
    Result (gmap string PyVal);
  mustBeFirstWrapper : bool;
}.

(** An open span: what is fixed when the span is opened. *)
Record OpenSpan := {
  open_id : nat;
  open_name : string;
  open_start : nat;
  open_parent : option nat;
}.

(** Modelled from the spec: opening a span immediately before delegating to
    the original callable.  The span is named by the override or else by the
    resolver, becomes the active span and remembers the span that was active
    as its parent. *)
Definition open_span (cfg : Config) (target : Callable) : M Tracing OpenSpan :=
  fun st =>
    let sp := {| open_id := next_span_id st;
                 open_name := default (_get_func_name target) (spanName cfg);
                 open_start := clock st;
                 open_parent := active_span st |} in
    (Ok sp,
     {| otel_tracing := otel_tracing st; base_scope := base_scope st;
        clock := S (clock st);
        active_span := Some (next_span_id st);
        next_span_id := S (next_span_id st);
        finished_spans := finished_spans st; warnings := warnings st |}).

(** Modelled from the spec: computing the attributes once the call has
    completed, namespacing them as [<base-scope>.<sub-scope>.<key>], closing
    the span and handing it to the processor, which here forwards each
    closed span at once to the in-memory exporter.  An exception raised by
    the extractor is caught and logged; the span then closes without those
    attributes.  The outcome of the call is passed on unchanged. *)
Definition close_span (cfg : Config) (sp : OpenSpan)
    (args : list PyVal) (kwargs : gmap string PyVal) (outcome : Result PyVal)
  : M Tracing PyVal :=
  fun st =>
    let extracted :=
      attributeExtractor cfg (outcome_result outcome) (outcome_error outcome)
        args kwargs in
    let scope := base_scope st +:+ "." +:+ span_kind_scope (spanKind cfg) +:+ "." in
    let attrs :=
      match extracted with
      | Ok d => dict_prefix_keys scope d
      | Raise _ => ∅
      end in
    let logged :=
      match extracted with
      | Ok _ => warnings st
      | Raise e => (warnings st ++ [exc_msg e])%list
      end in
    let span := {| span_name := open_name sp;
                   start_time := open_start sp;
                   end_time := clock st;
                   span_attributes := attrs;
                   span_status :=
                     match outcome with
                     | Ok _ => StatusOK
                     | Raise e => StatusERROR (exc_msg e)
                     end;
                   span_parent := open_parent sp |} in
    (outcome,
     {| otel_tracing := otel_tracing st; base_scope := base_scope st;
        clock := S (clock st);
        active_span := open_parent sp;
        next_span_id := next_span_id st;
        finished_spans := (finished_spans st ++ [span])%list;
        warnings := logged |}).

(** Running a body whose exception must not skip what follows. *)
Definition attempt {S A} (m : M S A) : M S (Result A) :=
  fun st => let '(r, st') := m st in (Ok r, st').

(** Modelled from the spec: the wrapper [instrument] puts around a
    synchronous, non-generator callable.  With the tracing mode off the
    wrapper passes the call through. *)
Definition call_sync (cfg : Config) (target : Callable)
    (body : list PyVal -> gmap string PyVal -> M Tracing PyVal)
    (args : list PyVal) (kwargs : gmap string PyVal) : M Tracing PyVal :=
  enabled ← gets otel_tracing;
  if enabled : bool then
    sp ← open_span cfg target;
    outcome ← attempt (body args kwargs);
    close_span cfg sp args kwargs outcome
  else body args kwargs.

(** A coroutine body: it runs a piece of code and then either returns (or
    raises), or suspends at an [await] and continues later. *)
Inductive Coroutine :=
| CoReturn (m : M Tracing PyVal)
| CoAwait (m : M Tracing unit) (rest : Coroutine).

(** The scheduler regaining control at a suspension point: time passes. *)
Definition suspend : M Tracing unit :=
  modify (fun st =>
    {| otel_tracing := otel_tracing st; base_scope := base_scope st;
       clock := S (clock st);
       active_span := active_span st;
       next_span_id := next_span_id st;
       finished_spans := finished_spans st; warnings := warnings st |}).

(** [asyncio.run(coroutine)] for a single task: drive it to completion. *)
Fixpoint run_coroutine (c : Coroutine) : M Tracing PyVal :=
  match c with
  | CoReturn m => m
  | CoAwait m rest => m;; suspend;; run_coroutine rest
  end.

(** Modelled from the spec: the wrapper around an asynchronous,
    non-generator callable.  Span open and close bracket the awaited
    completion; the span stays open across every suspension. *)
Definition call_async (cfg : Config) (target : Callable)
    (body : list PyVal -> gmap string PyVal -> Coroutine)
    (args : list PyVal) (kwargs : gmap string PyVal) : M Tracing PyVal :=
  enabled ← gets otel_tracing;
  if enabled : bool then
    sp ← open_span cfg target;
    outcome ← attempt (run_coroutine (body args kwargs));
    close_span cfg sp args kwargs outcome
  else run_coroutine (body args kwargs).

(** ** The scenario of [tests/unit/test_otel_instrument.py] *)

(** [@instrument(attributes=lambda ret, exception, *args, **kwargs:
      {"best_baby": ret})] *)
Definition best_baby_config : Config :=
  {| spanName := None;
     spanKind := Session.UNKNOWN;
     attributeExtractor := fun ret _ _ _ => Ok {[ "best_baby" := ret ]};
     mustBeFirstWrapper := false |}.

Definition test_module : string := "tests.unit.test_otel_instrument".

(** [def my_function(): return "Kojikun"], local to
    [test_sync_non_generator_function]. *)
Definition my_function_sync : Callable :=
  Function {| fn_module := test_module; fn_class := None;
              fn_scope := ["TestOtelInstrument";
                           "test_sync_non_generator_function"; "<locals>"];
              fn_name := "my_function" |}.

Definition my_function_sync_body : list PyVal -> gmap string PyVal -> M Tracing PyVal :=
  fun _ _ => mret (PyStr "Kojikun").

(** [async def my_function(): await asyncio.sleep(0.00001); return "Kojikun"],
    local to [test_async_non_generator_function]. *)
Definition my_function_async : Callable :=
  Function {| fn_module := test_module; fn_class := None;
              fn_scope := ["TestOtelInstrument";
                           "test_async_non_generator_function"; "<locals>"];
              fn_name := "my_function" |}.

Definition my_function_async_body : list PyVal -> gmap string PyVal -> Coroutine :=
  fun _ _ => CoAwait (mret tt) (CoReturn (mret (PyStr "Kojikun"))).

(** A coroutine that suspends [n] times and then ends as [m] does. *)
Fixpoint after_awaits (n : nat) (m : M Tracing PyVal) : Coroutine :=
  match n with
  | 0 => CoReturn m
  | S n' => CoAwait (mret tt) (after_awaits n' m)
  end.

(** The tracing state [n] suspensions later. *)
Definition later (n : nat) (st : Tracing) : Tracing :=
  {| otel_tracing := otel_tracing st; base_scope := base_scope st;
     clock := n + clock st;
     active_span := active_span st;
     next_span_id := next_span_id st;
     finished_spans := finished_spans st; warnings := warnings st |}.

(** The callables of [test__get_func_name]: [lambda: None] and the bound
    method [self.test__get_func_name]. *)
Definition a_lambda : Callable :=
  Function {| fn_module := test_module; fn_class := None;
              fn_scope := ["TestOtelInstrument"; "test__get_func_name"; "<locals>"];
              fn_name := "<lambda>" |}.

Definition a_bound_method : Callable :=
  Function {| fn_module := test_module; fn_class := Some "TestOtelInstrument";
              fn_scope := []; fn_name := "test__get_func_name" |}.


(** [pd.DataFrame.transpose] *)
Definition DataFrame_transpose : Callable :=
  Function {| fn_module := "pandas.core.frame"; fn_class := Some "DataFrame";
              fn_scope := []; fn_name := "transpose" |}.

(** The tracing state after the test's [setUp]: tracing on, base scope
    ["trulens"], an empty in-memory exporter. *)
Definition after_setUp : Tracing :=
  {| otel_tracing := true; base_scope := "trulens"; clock := 0;
     active_span := None; next_span_id := 0;
     finished_spans := []; warnings := [] |}.

End Instrument.

(* ===================================================================== *)
(** * Sample environments                                                 *)
(* ===================================================================== *)

Module Samples.
Import Session.

Definition externals : Externals :=
  {| resource_defaults := {[ "telemetry.sdk.language" := "python" ]};
     UNICODE_CHECK := "[ok]";
     class_name := fun cls => cls |}.

(** A process in which no tracer provider has been installed. *)
Definition fresh_process : Process :=
  {| heap := {[ 0 := ForeignProvider "ProxyTracerProvider" ]};
     _TRACER_PROVIDER := None;
     _PROXY_TRACER_PROVIDER := 0;
     log_records := [] |}.

(** A process in which another subsystem installed a provider that is not
    an SDK [TracerProvider]. *)
Definition foreign_installed : Process :=
  {| heap := {[ 0 := ForeignProvider "ProxyTracerProvider";
                1 := ForeignProvider "NoOpTracerProvider" ]};
     _TRACER_PROVIDER := Some 1;
     _PROXY_TRACER_PROVIDER := 0;
     log_records := [] |}.

(** A process in which another subsystem installed an SDK [TracerProvider]
    of its own, with its own resource. *)
Definition billing_resource : Resource :=
  {| resource_attributes := {[ "service.name" := "billing" ]} |}.

Definition sdk_installed : Process :=
  {| heap := {[ 0 := ForeignProvider "ProxyTracerProvider";
                1 := TracerProvider billing_resource [] ]};
     _TRACER_PROVIDER := Some 1;
     _PROXY_TRACER_PROVIDER := 0;
     log_records := [] |}.

(** A session on which nothing experimental has been set. *)
Definition new_session : TruSession :=
  {| experimental_flags := fun _ => {| flag_value := false; flag_frozen := false |};
     _experimental_otel_exporter := None;
     _experimental_tracer_provider := None;
     _experimental_otel_span_processor := None |}.

(** Exporter arguments that are not [SpanExporter]s: a dict with one entry,
    and the empty string. *)
Definition a_dict : ExporterVal := EObject "dict" true false.
Definition empty_str : ExporterVal := EObject "str" false false.

(** An interpreter without the Cortex provider and with the OpenAI one. *)
Definition Completions : PyClass :=
  {| class_qualname := "openai.resources.completions.Completions";
     class_attrs := ["create"; "with_raw_response"] |}.

Definition ChatCompletions : PyClass :=
  {| class_qualname := "openai.resources.chat.completions.Completions";
     class_attrs := ["create"; "with_raw_response"] |}.

Definition Chat : PyClass :=
  {| class_qualname := "openai.resources.chat.chat.Chat";
     class_attrs := ["completions"; "with_raw_response"] |}.

Definition SSEClient_class : PyClass :=
  {| class_qualname := "snowflake.cortex._sse_client.SSEClient";
     class_attrs := ["events"] |}.

Definition openai_getattr (module : SdkModule) (name : string) : option ModuleAttr :=
  match module with
  | mod_openai =>
      if decide (name = "Completions") then Some (AttrClass Completions)
      else if decide (name = "api_key") then None
      else if decide (name = "VERSION") then Some (AttrOther (PyStr "1.0"))
      else None
  | mod_resources =>
      if decide (name = "Chat") then Some (AttrClass Chat)
      else if decide (name = "Completions") then Some (AttrClass Completions)
      else None
  | mod_chat =>
      if decide (name = "Chat") then Some (AttrClass Chat)
      else if decide (name = "Completions") then Some (AttrClass ChatCompletions)
      else None
  end.

Definition usage : gmap string PyVal :=
  {[ "n_tokens" := PyInt 12; "cost" := PyInt 3 ]}.

Definition openai_only : PyEnv :=
  {| BASE_SCOPE := "trulens";
     import_outcome := fun name =>
       if decide (name = "trulens.providers.cortex.endpoint")
       then RaisesImportError
              {| exc_class := "ModuleNotFoundError";
                 exc_msg := "No module named 'trulens.providers.cortex'" |}
       else Imported;
     SSEClient := SSEClient_class;
     module_dir := fun module =>
       match module with
       | mod_openai => ["Completions"; "VERSION"; "api_key"]
       | mod_resources => ["Chat"; "Completions"]
       | mod_chat => ["Chat"; "Completions"]
       end;
     safer_getattr := openai_getattr;
     handle_response := fun _ _ => usage |}.

(** Two interpreters in which the OpenAI provider is importable and the
    Cortex block raises: in the first the Cortex provider imports but the
    private SDK module it goes on to import is missing; in the second the
    Cortex provider's own import fails with something that is not an
    [ImportError]. *)
Definition cortex_sdk_missing : PyEnv :=
  {| BASE_SCOPE := "trulens";
     import_outcome := fun name =>
       if decide (name = "snowflake.cortex._sse_client")
       then RaisesImportError
              {| exc_class := "ModuleNotFoundError";
                 exc_msg := "No module named 'snowflake.cortex._sse_client'" |}
       else Imported;
     SSEClient := SSEClient_class;
     module_dir := module_dir openai_only;
     safer_getattr := openai_getattr;
     handle_response := fun _ _ => usage |}.

Definition cortex_probe_broken : PyEnv :=
  {| BASE_SCOPE := "trulens";
     import_outcome := fun name =>
       if decide (name = "trulens.providers.cortex.endpoint")
       then RaisesOther {| exc_class := "RuntimeError"; exc_msg := "bad install" |}
       else Imported;
     SSEClient := SSEClient_class;
     module_dir := module_dir openai_only;
     safer_getattr := openai_getattr;
     handle_response := fun _ _ => usage |}.

(** [setUp] of [tests/unit/test_otel_instrument.py] (lines 18-24). *)
Definition in_memory_exporter : ExporterVal :=
  EObject "InMemorySpanExporter" true true.

Definition setUp : M Process unit :=
  _ ← @_set_up_tracer_provider externals;
  provider ← get_tracer_provider;
  add_span_processor provider (SimpleSpanProcessor in_memory_exporter).

End Samples.

(* ===================================================================== *)
(** * Repeated and combined calls                                         *)
(* ===================================================================== *)

Module Scenarios.
Import Session.

(** Calling [m] [n] times in a row and collecting what it returns; the
    first exception ends the run. *)
Fixpoint repeat_call {S A} (n : nat) (m : M S A) : M S (list A) :=
  match n with
  | 0 => mret []
  | S k => x ← m; xs ← repeat_call k m; mret (x :: xs)
  end.

#[export] Instance PyClass_eq_dec : EqDecision PyClass.
Proof. solve_decision. Defined.

#[export] Instance ModuleAttr_eq_dec : EqDecision ModuleAttr.
Proof. solve_decision. Defined.

(** The attribute names of a module that are bound to the class [c]. *)
Definition names_bound_to (env : PyEnv) (c : PyClass) (module : SdkModule)
  : list string :=
  filter (fun attr => safer_getattr env module attr = Some (AttrClass c))
    (module_dir env module).

(** What every call to [instrument_method] in [_track_costs] looks like:
    first wrapper, span type [UNKNOWN], the costs prefix, and either
    [SSEClient.events] with the Cortex computer or ["create"] of a class
    that has that attribute with the OpenAI computer. *)
Definition is_cost_hook (env : PyEnv) (r : InstrumentMethodCall) : Prop :=
  must_be_first_wrapper r = true
  /\ span_type r = UNKNOWN
  /\ captured_prefix (full_scoped_attributes r) = BASE_SCOPE env +:+ ".costs."
  /\ ((target_class r = SSEClient env /\ method_name r = "events"
       /\ captured_computer (full_scoped_attributes r) = CortexCostComputer)
      \/ (method_name r = "create" /\ "create" ∈ class_attrs (target_class r)
          /\ captured_computer (full_scoped_attributes r) = OpenAICostComputer)).

(** An import that raises [e], as an [ImportError] or as anything else. *)
Definition import_raises (env : PyEnv) (name : string) (e : PyExc) : Prop :=
  import_outcome env name = RaisesImportError e
  \/ import_outcome env name = RaisesOther e.

(** The exporter the session ends up with: the argument if it is truthy,
    else the default built on the connector (lines 57-58). *)
Definition effective_exporter (connector : DBConnector) (exporter : ExporterVal)
  : ExporterVal :=
  if negb (truthy exporter) then TruLensOTELSpanExporter connector else exporter.

(** The provider [g] that is global once [_set_up_tracer_provider] has run
    in [w], when that is an SDK provider with resource [res] and processors
    [procs]: the one just created if none was installed, else the one that
    was installed. *)
Definition provider_after_bootstrap `{Externals} (w : Process) (g : ref)
    (res : Resource) (procs : list SpanProcessor) : Prop :=
  (_TRACER_PROVIDER w = None /\ g = next_ref w
   /\ res = trulens_resource /\ procs = [])
  \/ (_TRACER_PROVIDER w = Some g /\ heap w !! g = Some (TracerProvider res procs)).

(** An exporter argument the method accepts: falsy (replaced by the
    default) or a [SpanExporter]. *)
Definition acceptable_exporter (exporter : ExporterVal) : Prop :=
  truthy exporter = false \/ isinstance_SpanExporter exporter = true.

(** The line [_set_up_otel_exporter] logs (lines 53-55). *)
Definition exporter_log_line `{Externals} (exporter : ExporterVal) : string :=
  UNICODE_CHECK +:+ " OpenTelemetry exporter set: " +:+ class_name (class_of exporter).

End Scenarios.

(* ===================================================================== *)
(** * Properties                                                          *)
(* ===================================================================== *)

(* --------------------------------------------------------------------- *)
(** ** Snowflake object types                                             *)
(* --------------------------------------------------------------------- *)

Lemma py_eq_str_r (a : PyVal) (s : string) :
  py_eq a (PyStr s) = true <-> str_content a = Some s.
Proof.
  destruct a; simpl; split; intros Hs; try discriminate;
    try (apply bool_decide_eq_true in Hs; by subst);
    try (inversion Hs; subst; by apply bool_decide_eq_true).
Qed.

Lemma py_eq_sym (a b : PyVal) : py_eq a b = py_eq b a.
Proof.
  destruct a, b; simpl; try reflexivity;
    apply bool_decide_ext; split; congruence.
Qed.

(** C9.  [ObjectType.is_valid_object(key)] is true exactly when
    [key == "EXTERNAL AGENT"], the string value of the only declared member;
    for every other key it is false. *)
Theorem is_valid_object_iff (key : PyVal) :
  Enums.is_valid_object key = py_eq key (PyStr "EXTERNAL AGENT")
  /\ (Enums.is_valid_object key = true <->
      str_content key = Some "EXTERNAL AGENT").
Proof.
  assert (Hrun : Enums.is_valid_object key = py_eq key (PyStr "EXTERNAL AGENT")).
  { unfold Enums.is_valid_object, py_contains; cbn [fmap list_fmap snd existsb Enums.__members__].
    rewrite orb_false_r, py_eq_sym.
    destruct key; simpl; reflexivity. }
  split; [exact Hrun |].
  rewrite Hrun. apply py_eq_str_r.
Qed.

(* --------------------------------------------------------------------- *)
(** ** Tracer provider bootstrap                                          *)
(* --------------------------------------------------------------------- *)

Section Bootstrap.
Context `{ext : Session.Externals}.
Import Session.

Lemma trulens_resource_tagged :
  resource_attributes trulens_resource !! "service.name" = Some "trulens".
Proof.
  unfold trulens_resource, Resource_create; simpl.
  apply lookup_union_Some_l, lookup_singleton_eq.
Qed.

Lemma next_ref_unused (w : Process) : heap w !! next_ref w = None.
Proof. unfold next_ref. apply not_elem_of_dom. apply is_fresh. Qed.

Lemma next_ref_neq (w : Process) (r : ref) (o : Obj) :
  heap w !! r = Some o -> r <> next_ref w.
Proof. intros Hr ->. rewrite next_ref_unused in Hr. discriminate. Qed.

(** One pass through the body: a provider is allocated and offered to the
    API; the provider read back decides between [return] and [raise]. *)
Lemma set_up_tracer_provider_run (w : Process) :
  _set_up_tracer_provider w =
  (if isinstance_TracerProvider (heap (after_set_up w))
        (default (next_ref w) (_TRACER_PROVIDER w))
   then Ok (default (next_ref w) (_TRACER_PROVIDER w))
   else Raise (ValueError "Received a TracerProvider of an unexpected type!"),
   after_set_up w).
Proof.
  unfold _set_up_tracer_provider, after_set_up, trulens_resource, next_ref.
  unfold mbind, M_bind, bind, new_object, set_tracer_provider, get_tracer_provider,
    gets, modify, set_heap; simpl.
  destruct (_TRACER_PROVIDER w) as [old|]; simpl;
    match goal with |- context [isinstance_TracerProvider ?h ?r] =>
      destruct (isinstance_TracerProvider h r) end; reflexivity.
Qed.

Lemma isinstance_after_set_up_old (w : Process) (old : ref) (o : Obj) :
  heap w !! old = Some o ->
  isinstance_TracerProvider (heap (after_set_up w)) old =
  match o with TracerProvider _ _ => true | ForeignProvider _ => false end.
Proof.
  intros Hold. unfold isinstance_TracerProvider, after_set_up; simpl.
  rewrite lookup_insert_ne by (symmetry; eapply next_ref_neq; eauto).
  by rewrite Hold.
Qed.

Lemma isinstance_after_set_up_new (w : Process) :
  isinstance_TracerProvider (heap (after_set_up w)) (next_ref w) = true.
Proof.
  unfold isinstance_TracerProvider, after_set_up; simpl.
  by rewrite lookup_insert_eq.
Qed.

(** With nothing installed the call installs the provider it created. *)
Lemma set_up_tracer_provider_first (w : Process) :
  _TRACER_PROVIDER w = None ->
  _set_up_tracer_provider w = (Ok (next_ref w), after_set_up w).
Proof.
  intros Hnone. rewrite set_up_tracer_provider_run, Hnone; cbn [default from_option id].
  by rewrite isinstance_after_set_up_new.
Qed.

(** C4 (as amended).  When the provider installed earlier in the process is
    not an SDK [TracerProvider], [_set_up_tracer_provider] fails with a
    [ValueError] ("Received a TracerProvider of an unexpected type!").  The
    error comes from the single pass through the body: one provider is
    created, one installation is attempted, the incompatible provider stays
    the global one, and nothing is retried. *)
Theorem set_up_tracer_provider_incompatible (w : Process) (old : ref) (cls : string) :
  _TRACER_PROVIDER w = Some old ->
  heap w !! old = Some (ForeignProvider cls) ->
  _set_up_tracer_provider w =
    (Raise (ValueError "Received a TracerProvider of an unexpected type!"),
     after_set_up w)
  /\ exc_class (ValueError "Received a TracerProvider of an unexpected type!")
     = "ValueError"
  /\ _TRACER_PROVIDER (after_set_up w) = Some old
  /\ heap (after_set_up w) !! old = Some (ForeignProvider cls)
  /\ dom (heap (after_set_up w)) = {[ next_ref w ]} ∪ dom (heap w).
Proof.
  intros Hglobal Hold.
  rewrite set_up_tracer_provider_run, Hglobal; cbn [default from_option id].
  rewrite (isinstance_after_set_up_old w old _ Hold).
  repeat split.
  - unfold after_set_up; simpl. by rewrite Hglobal.
  - unfold after_set_up; simpl.
    rewrite lookup_insert_ne by (symmetry; eapply next_ref_neq; eauto). done.
  - unfold after_set_up; simpl. apply dom_insert_L.
Qed.

(** C5 (as amended).  On the non-failing path [_set_up_tracer_provider]
    creates a resource tagged [service.name = "trulens"] and a provider
    owning it, offers that provider to the global installation call, and
    returns the process-wide provider, an SDK [TracerProvider]: the
    provider it created when none was installed before, and otherwise the
    provider that was already installed. *)
Theorem set_up_tracer_provider_ok (w w' : Process) (p : ref) :
  _set_up_tracer_provider w = (Ok p, w') ->
  w' = after_set_up w
  /\ heap w !! next_ref w = None
  /\ heap w' !! next_ref w = Some (TracerProvider trulens_resource [])
  /\ resource_attributes trulens_resource !! "service.name" = Some "trulens"
  /\ _TRACER_PROVIDER w' = Some p
  /\ isinstance_TracerProvider (heap w') p = true
  /\ (_TRACER_PROVIDER w = None -> p = next_ref w)
  /\ (forall old, _TRACER_PROVIDER w = Some old -> p = old).
Proof.
  rewrite set_up_tracer_provider_run.
  destruct (isinstance_TracerProvider _ _) eqn:Hsdk; intros Hrun;
    inversion Hrun; subst; clear Hrun.
  split; [reflexivity |].
  split; [apply next_ref_unused |].
  split; [unfold after_set_up; simpl; apply lookup_insert_eq |].
  split; [apply trulens_resource_tagged |].
  split; [reflexivity |].
  split; [exact Hsdk |].
  split; [intros ->; reflexivity | intros old ->; reflexivity].
Qed.

(** C6 (as amended).  Calling [_set_up_tracer_provider] when a compatible
    provider is already installed creates a new provider but does not make
    it the global one: the API keeps the provider installed first, the call
    returns that earlier provider, and the processors registered on it stay
    registered. *)
Theorem set_up_tracer_provider_again (w : Process) (old : ref)
    (res : Resource) (procs : list SpanProcessor) :
  _TRACER_PROVIDER w = Some old ->
  heap w !! old = Some (TracerProvider res procs) ->
  _set_up_tracer_provider w = (Ok old, after_set_up w)
  /\ old <> next_ref w
  /\ _TRACER_PROVIDER (after_set_up w) = Some old
  /\ heap (after_set_up w) !! old = Some (TracerProvider res procs)
  /\ heap (after_set_up w) !! next_ref w = Some (TracerProvider trulens_resource []).
Proof.
  intros Hglobal Hold.
  pose proof (next_ref_neq w old _ Hold) as Hne.
  rewrite set_up_tracer_provider_run, Hglobal; cbn [default from_option id].
  rewrite (isinstance_after_set_up_old w old _ Hold).
  repeat split.
  - exact Hne.
  - unfold after_set_up; simpl. by rewrite Hglobal.
  - unfold after_set_up; simpl. by rewrite lookup_insert_ne.
  - unfold after_set_up; simpl. by rewrite lookup_insert_eq.
Qed.

End Bootstrap.

(** Witness for C4: a process whose global provider is a foreign one. *)
Lemma set_up_tracer_provider_incompatible_witness :
  let w := Samples.foreign_installed in
  Session._TRACER_PROVIDER w = Some 1
  /\ Session.heap w !! 1 = Some (Session.ForeignProvider "NoOpTracerProvider")
  /\ @Session._set_up_tracer_provider Samples.externals w =
       (Raise (ValueError "Received a TracerProvider of an unexpected type!"),
        @Session.after_set_up Samples.externals w).
Proof.
  split; [reflexivity |]. split; [reflexivity |].
  apply (@set_up_tracer_provider_incompatible Samples.externals
           Samples.foreign_installed 1 "NoOpTracerProvider");
    reflexivity.
Defined.

(** C4, refuted as stated: with an incompatible provider installed the call
    does fail, but what reaches the caller is a [ValueError], not a
    [ConfigurationError]. *)
Lemma set_up_tracer_provider_not_ConfigurationError :
  Session._TRACER_PROVIDER Samples.foreign_installed = Some 1
  /\ Session.heap Samples.foreign_installed !! 1
     = Some (Session.ForeignProvider "NoOpTracerProvider")
  /\ ~ exists e w',
        @Session._set_up_tracer_provider Samples.externals Samples.foreign_installed
          = (Raise e, w')
        /\ exc_class e = "ConfigurationError".
Proof.
  split; [reflexivity |]. split; [reflexivity |].
  intros (e & w' & Hrun & Hcls).
  rewrite set_up_tracer_provider_run in Hrun.
  rewrite (isinstance_after_set_up_old _ 1 (Session.ForeignProvider "NoOpTracerProvider"))
    in Hrun by reflexivity.
  inversion Hrun; subst. discriminate Hcls.
Qed.

(** Witness for C5: the first installation in a process. *)
Lemma set_up_tracer_provider_ok_witness :
  let w := Samples.fresh_process in
  @Session._set_up_tracer_provider Samples.externals w
    = (Ok (Session.next_ref w), @Session.after_set_up Samples.externals w)
  /\ Session._TRACER_PROVIDER (@Session.after_set_up Samples.externals w)
     = Some (Session.next_ref w).
Proof.
  pose proof (@set_up_tracer_provider_first Samples.externals
                Samples.fresh_process eq_refl) as Hrun.
  split; [exact Hrun |].
  exact (proj1 (proj2 (proj2 (proj2 (proj2
    (@set_up_tracer_provider_ok Samples.externals _ _ _ Hrun)))))).
Defined.

(** C5, refuted as stated: where another SDK provider is installed, the call
    succeeds, yet what it returns is that provider, whose resource is not
    the one tagged ["trulens"]; the provider the call created is not the
    global one. *)
Lemma set_up_tracer_provider_returns_earlier :
  let w := Samples.sdk_installed in
  exists w',
    @Session._set_up_tracer_provider Samples.externals w = (Ok 1, w')
    /\ 1 <> Session.next_ref w
    /\ Session._TRACER_PROVIDER w' <> Some (Session.next_ref w)
    /\ Session.heap w' !! 1
       = Some (Session.TracerProvider Samples.billing_resource [])
    /\ Session.resource_attributes Samples.billing_resource !! "service.name"
       <> Some "trulens".
Proof.
  intros w. exists (@Session.after_set_up Samples.externals w).
  assert (Hold : Session.heap w !! 1
                 = Some (Session.TracerProvider Samples.billing_resource []))
    by reflexivity.
  pose proof (next_ref_neq w 1 _ Hold) as Hne.
  split.
  { rewrite set_up_tracer_provider_run.
    change (Session._TRACER_PROVIDER w) with (Some 1); cbn [default from_option id].
    by rewrite (isinstance_after_set_up_old w 1 _ Hold). }
  split; [exact Hne |].
  split; [simpl; congruence |].
  split.
  { unfold Session.after_set_up; simpl.
    rewrite lookup_insert_ne by congruence. exact Hold. }
  unfold Samples.billing_resource; simpl.
  rewrite lookup_singleton_eq. congruence.
Qed.

(** Witness for C6: the billing provider stays installed. *)
Lemma set_up_tracer_provider_again_witness :
  let w := Samples.sdk_installed in
  Session._TRACER_PROVIDER w = Some 1
  /\ Session.heap w !! 1 = Some (Session.TracerProvider Samples.billing_resource [])
  /\ @Session._set_up_tracer_provider Samples.externals w
     = (Ok 1, @Session.after_set_up Samples.externals w).
Proof.
  split; [reflexivity |]. split; [reflexivity |].
  apply (@set_up_tracer_provider_again Samples.externals Samples.sdk_installed 1
           Samples.billing_resource []); reflexivity.
Defined.

(** C6, refuted as stated: after the test's [setUp] has run once, a second
    call returns the provider of the first call, still carrying the
    processor registered in between; the instance created by the second call
    is neither returned nor global. *)
Lemma second_set_up_keeps_first_provider :
  exists w1 w2,
    Samples.setUp Samples.fresh_process = (Ok tt, w1)
    /\ Session._TRACER_PROVIDER w1 = Some 1
    /\ Session.next_ref w1 = 2
    /\ @Session._set_up_tracer_provider Samples.externals w1 = (Ok 1, w2)
    /\ Session._TRACER_PROVIDER w2 = Some 1
    /\ Session.heap w2 !! 1
       = Some (Session.TracerProvider (@Session.trulens_resource Samples.externals)
                 [Session.SimpleSpanProcessor Samples.in_memory_exporter])
    /\ Session.heap w2 !! 2
       = Some (Session.TracerProvider (@Session.trulens_resource Samples.externals) []).
Proof.
  eexists _, _.
  split; [vm_compute; reflexivity |].
  repeat split; vm_compute; reflexivity.
Qed.

(* --------------------------------------------------------------------- *)
(** ** Exporter set-up                                                    *)
(* --------------------------------------------------------------------- *)

Section ExporterSetUp.
Context `{ext : Session.Externals}.
Import Session.

(** C10 (as amended).  [_set_up_otel_exporter] is not atomic on error: for
    every exporter argument that is truthy and not a [SpanExporter]
    instance the call raises [ValueError], and by then it has set and frozen
    the session's [OTEL_TRACING] flag to true, stored the invalid exporter on
    the session and created a new tracer provider, which is the global one
    (and is cached on the session) whenever none was installed before.  No
    span processor is registered. *)
Theorem set_up_otel_exporter_not_atomic
    (connector : DBConnector) (exporter : ExporterVal)
    (self : TruSession) (w : Process) :
  truthy exporter = true ->
  isinstance_SpanExporter exporter = false ->
  exists e self' w',
    _set_up_otel_exporter connector exporter (self, w) = (Raise e, (self', w'))
    /\ exc_class e = "ValueError"
    /\ experimental_flags self' OTEL_TRACING
       = {| flag_value := true; flag_frozen := true |}
    /\ _experimental_otel_exporter self' = Some exporter
    /\ heap w !! next_ref w = None
    /\ heap w' !! next_ref w = Some (TracerProvider trulens_resource [])
    /\ _experimental_otel_span_processor self'
       = _experimental_otel_span_processor self
    /\ (_TRACER_PROVIDER w = None ->
        e = ValueError "Provided exporter must be an OpenTelemetry SpanExporter"
        /\ _TRACER_PROVIDER w' = Some (next_ref w)
        /\ _experimental_tracer_provider self' = Some (next_ref w)).
Proof.
  intros Htruthy Hinst.
  unfold _set_up_otel_exporter.
  rewrite Htruthy; cbn [negb].
  unfold mbind, M_bind, bind, on_self, on_process, modify; cbn [fst snd].
  set (msg := UNICODE_CHECK +:+ " OpenTelemetry exporter set: " +:+
                class_name (class_of exporter)).
  set (w0 := (logger_info msg w).2).
  assert (Hw0 : logger_info msg w = (Ok tt, w0)) by reflexivity.
  rewrite Hw0.
  rewrite set_up_tracer_provider_run.
  assert (Hheap : heap (after_set_up w0) !! next_ref w
                  = Some (TracerProvider trulens_resource [])).
  { unfold after_set_up; simpl. apply lookup_insert_eq. }
  destruct (isinstance_TracerProvider _ _) eqn:Hsdk.
  - rewrite Htruthy, Hinst; cbn [negb andb raise].
    eexists _, _, _. split; [reflexivity |].
    split; [reflexivity |].
    split; [reflexivity |].
    split; [reflexivity |].
    split; [apply next_ref_unused |].
    split; [exact Hheap |].
    split; [reflexivity |].
    intros Hnone. split; [reflexivity |].
    simpl. rewrite Hnone. split; reflexivity.
  - eexists _, _, _. split; [reflexivity |].
    split; [reflexivity |].
    split; [reflexivity |].
    split; [reflexivity |].
    split; [apply next_ref_unused |].
    split; [exact Hheap |].
    split; [reflexivity |].
    intros Hnone. exfalso.
    cbn [snd] in Hsdk.
    change (_TRACER_PROVIDER w0) with (_TRACER_PROVIDER w) in Hsdk.
    rewrite Hnone in Hsdk; cbn [default from_option id] in Hsdk.
    change (next_ref w0) with (next_ref w) in Hsdk.
    unfold isinstance_TracerProvider in Hsdk. rewrite Hheap in Hsdk.
    discriminate.
Qed.

End ExporterSetUp.

(** Witness for C10: a dict handed over as the exporter of a new session. *)
Lemma set_up_otel_exporter_not_atomic_witness :
  Session.truthy Samples.a_dict = true
  /\ Session.isinstance_SpanExporter Samples.a_dict = false
  /\ exists e self' w',
       @Session._set_up_otel_exporter Samples.externals "db" Samples.a_dict
         (Samples.new_session, Samples.fresh_process) = (Raise e, (self', w'))
       /\ exc_class e = "ValueError"
       /\ Session._experimental_otel_exporter self' = Some Samples.a_dict.
Proof.
  split; [reflexivity |]. split; [reflexivity |].
  destruct (@set_up_otel_exporter_not_atomic Samples.externals "db" Samples.a_dict
              Samples.new_session Samples.fresh_process eq_refl eq_refl)
    as (e & self' & w' & Hrun & Hcls & _ & Hexp & _).
  exists e, self', w'. auto.
Defined.

(** C10, refuted as stated: the empty string is neither [None] nor a
    [SpanExporter], yet the call returns normally; the session ends up with
    the default exporter, not the argument, and with a span processor
    registered on the provider. *)
Lemma set_up_otel_exporter_accepts_falsy :
  Samples.empty_str <> Session.ENone
  /\ Session.isinstance_SpanExporter Samples.empty_str = false
  /\ exists self' w',
       @Session._set_up_otel_exporter Samples.externals "db" Samples.empty_str
         (Samples.new_session, Samples.fresh_process) = (Ok tt, (self', w'))
       /\ Session._experimental_otel_exporter self'
          = Some (Session.TruLensOTELSpanExporter "db")
       /\ Session._experimental_otel_span_processor self'
          = Some (Session.BatchSpanProcessor (Session.TruLensOTELSpanExporter "db")).
Proof.
  split; [discriminate |]. split; [reflexivity |].
  eexists _, _.
  split; [vm_compute; reflexivity |].
  split; reflexivity.
Qed.

(* --------------------------------------------------------------------- *)
(** ** Cost-attribution hook                                              *)
(* --------------------------------------------------------------------- *)

Section CostHook.
Import Session.
Variable env : PyEnv.

(** The comprehension renames keys and keeps values: it is [kmap]. *)
Lemma dict_prefix_keys_kmap (prefix : string) (d : gmap string PyVal) :
  dict_prefix_keys prefix d = kmap (String.append prefix) d.
Proof.
  reflexivity.
Qed.

Lemma lookup_dict_prefix_keys (prefix : string) (d : gmap string PyVal) (k : string) :
  dict_prefix_keys prefix d !! (prefix +:+ k) = d !! k.
Proof. rewrite dict_prefix_keys_kmap. apply (lookup_kmap (String.append prefix)). Qed.

Lemma lookup_dict_prefix_keys_Some (prefix : string) (d : gmap string PyVal)
    (key : string) (v : PyVal) :
  dict_prefix_keys prefix d !! key = Some v <->
  exists k, key = prefix +:+ k /\ d !! k = Some v.
Proof. rewrite dict_prefix_keys_kmap. apply (lookup_kmap_Some (String.append prefix)). Qed.

Lemma py_import_ok {S} (name : string) (s : S) :
  import_outcome env name = Imported -> py_import env name s = (Ok tt, s).
Proof. intros Himp. unfold py_import. by rewrite Himp. Qed.

Lemma instrument_method_run cls name st attrs first (reg : Registry) :
  instrument_method cls name st attrs first reg =
  (Ok tt, reg ++ [{| target_class := cls; method_name := name; span_type := st;
                     full_scoped_attributes := attrs;
                     must_be_first_wrapper := first |}])%list.
Proof. reflexivity. Qed.

(** One attribute of one module: a registration exactly for a class that
    has a ["create"] attribute. *)
Lemma openai_visit_run (module : SdkModule) (name : string) (reg : Registry) :
  openai_visit env module name reg =
  (Ok tt,
   reg ++ ((fun c => cost_registration env OpenAICostComputer c "create") <$>
             option_list (create_class env module name)))%list.
Proof.
  unfold openai_visit, create_class.
  destruct (safer_getattr env module name) as [[c|v]|]; simpl;
    try (by rewrite app_nil_r).
  destruct (hasattr c "create"); simpl; [reflexivity | by rewrite app_nil_r].
Qed.

(** The inner loop, by induction on the names [dir(module)] lists. *)
Lemma openai_names_run (module : SdkModule) (names : list string) (reg : Registry) :
  for_each names (fun cls => openai_visit env module cls) reg =
  (Ok tt,
   reg ++ ((fun c => cost_registration env OpenAICostComputer c "create") <$>
             omap (create_class env module) names))%list.
Proof.
  revert reg. induction names as [|name names IH]; intros reg.
  - simpl. by rewrite app_nil_r.
  - cbn [for_each]. unfold bind at 1. rewrite openai_visit_run, IH.
    f_equal. rewrite <- app_assoc. f_equal.
    cbn [omap list_omap].
    destruct (create_class env module name); reflexivity.
Qed.

(** The outer loop, by induction on the list of modules. *)
Lemma openai_modules_run (modules : list SdkModule) (reg : Registry) :
  for_each modules (fun module =>
    for_each (module_dir env module) (fun cls => openai_visit env module cls)) reg =
  (Ok tt,
   reg ++ ((fun c => cost_registration env OpenAICostComputer c "create") <$>
             concat (create_classes env <$> modules)))%list.
Proof.
  revert reg. induction modules as [|module modules IH]; intros reg.
  - simpl. by rewrite app_nil_r.
  - cbn [for_each]. unfold bind at 1. rewrite openai_names_run, IH.
    f_equal. rewrite <- app_assoc. f_equal.
    cbn [fmap list_fmap concat]. by rewrite fmap_app.
Qed.

Lemma expected_registrations_cortex :
  expected_registrations env CortexCostComputer =
  [cost_registration env CortexCostComputer (SSEClient env) "events"].
Proof. reflexivity. Qed.

Lemma expected_registrations_openai :
  expected_registrations env OpenAICostComputer =
  (fun c => cost_registration env OpenAICostComputer c "create") <$>
    concat (create_classes env <$> [mod_openai; mod_resources; mod_chat]).
Proof.
  unfold expected_registrations, known_methods.
  rewrite <- list_fmap_compose. cbn [fmap list_fmap concat].
  by rewrite app_nil_r.
Qed.

(** A block whose provider is importable registers what is expected. *)
Lemma provider_block_importable (c : CostComputer) (reg : Registry) :
  provider_importable env c ->
  provider_block c env reg = (Ok tt, (reg ++ expected_registrations env c)%list).
Proof.
  intros Himp. apply Forall_cons in Himp as [Hprobe Himp]. destruct c.
  - repeat (apply Forall_cons in Himp as [? Himp]).
    cbn [probe_module] in *.
    unfold provider_block, cortex_block, _can_import, cortex_hook.
    unfold mbind, M_bind, bind.
    rewrite Hprobe; cbn [mret M_ret ret].
    rewrite !py_import_ok by assumption.
    by rewrite instrument_method_run, expected_registrations_cortex.
  - repeat (apply Forall_cons in Himp as [? Himp]).
    cbn [probe_module] in *.
    unfold provider_block, openai_block, _can_import, openai_hook.
    unfold mbind, M_bind, bind.
    rewrite Hprobe; cbn [mret M_ret ret].
    rewrite !py_import_ok by assumption.
    by rewrite openai_modules_run, expected_registrations_openai.
Qed.

(** A block whose provider is missing does nothing. *)
Lemma provider_block_missing (c : CostComputer) (reg : Registry) :
  provider_missing env c -> provider_block c env reg = (Ok tt, reg).
Proof.
  intros [e He]. destruct c; cbn [probe_module] in He;
    unfold provider_block, cortex_block, openai_block, _can_import,
      mbind, M_bind, bind; by rewrite He.
Qed.

Lemma track_costs_blocks (reg : Registry) :
  _track_costs env reg =
  bind (provider_block CortexCostComputer env)
       (fun _ => provider_block OpenAICostComputer env) reg.
Proof. reflexivity. Qed.

(** Either way a block adds the registrations meant for its provider. *)
Lemma provider_block_run (c : CostComputer) (reg : Registry) :
  provider_importable env c \/ provider_missing env c ->
  provider_block c env reg = (Ok tt, (reg ++ registrations_for env c)%list).
Proof.
  intros [Himp | Hmiss].
  - rewrite provider_block_importable by done.
    apply Forall_cons in Himp as [Hprobe _].
    unfold registrations_for, probe_succeeds. by rewrite Hprobe.
  - rewrite provider_block_missing by done.
    destruct Hmiss as [e He].
    unfold registrations_for, probe_succeeds. rewrite He. by rewrite app_nil_r.
Qed.

(** The classes visited for OpenAI are the classes with a ["create"]
    attribute found among the attributes of the three modules. *)
Lemma known_methods_openai (cls : PyClass) (name : string) :
  (cls, name) ∈ known_methods env OpenAICostComputer <->
  name = "create" /\
  exists module attr,
    attr ∈ module_dir env module
    /\ safer_getattr env module attr = Some (AttrClass cls)
    /\ "create" ∈ class_attrs cls.
Proof.
  assert (Hcc : forall module, cls ∈ create_classes env module <->
            exists attr, attr ∈ module_dir env module
              /\ safer_getattr env module attr = Some (AttrClass cls)
              /\ "create" ∈ class_attrs cls).
  { intros module. unfold create_classes. rewrite list_elem_of_omap.
    split.
    - intros (attr & Hin & Hc). exists attr. split; [done |].
      unfold create_class in Hc.
      destruct (safer_getattr env module attr) as [[c|v]|]; try discriminate.
      unfold hasattr in Hc. case_bool_decide; [| discriminate].
      by inversion Hc; subst.
    - intros (attr & Hin & Hget & Hcreate). exists attr. split; [done |].
      unfold create_class. rewrite Hget. unfold hasattr.
      by rewrite bool_decide_eq_true_2. }
  unfold known_methods. rewrite list_elem_of_fmap. split.
  - intros (c & Heq & Hin). inversion Heq; subst. split; [done |].
    rewrite !elem_of_app in Hin.
    destruct Hin as [Hin | [Hin | Hin]]; apply Hcc in Hin;
      destruct Hin as (attr & ?); eauto.
  - intros (-> & module & attr & Hin & Hget & Hcreate).
    exists cls. split; [done |]. rewrite !elem_of_app.
    destruct module; [left | right; left | right; right];
      apply Hcc; eauto.
Qed.

End CostHook.

(** C7 (as amended).  For a provider whose package is importable, the other
    one being importable or missing, [_track_costs] returns normally and has called
    [instrument_method] for each response-producing method of the
    provider's SDK: [SSEClient.events] for Cortex, and for OpenAI
    ["create"] on every class with a ["create"] attribute found in
    [openai], [openai.resources] and [openai.resources.chat].  Each such
    registration has [must_be_first_wrapper=True], and its extractor yields
    exactly the fields of the provider's [handle_response(ret)], each
    under its key prefixed with ["<BASE_SCOPE>.costs."]. *)
Theorem track_costs_registers (env : Session.PyEnv) (c : Session.CostComputer)
    (reg : Session.Registry) :
  Session.provider_importable env c ->
  Session.provider_importable env (Session.other_provider c)
    \/ Session.provider_missing env (Session.other_provider c) ->
  Session._track_costs env reg =
    (Ok tt, (reg ++ Session.registrations_for env Session.CortexCostComputer
                 ++ Session.registrations_for env Session.OpenAICostComputer)%list)
  /\ Session.registrations_for env c =
      (fun m => Session.cost_registration env c m.1 m.2) <$> Session.known_methods env c
  /\ Session.known_methods env Session.CortexCostComputer
      = [(Session.SSEClient env, "events")]
  /\ (forall cls name,
        (cls, name) ∈ Session.known_methods env Session.OpenAICostComputer <->
        name = "create" /\
        exists module attr,
          attr ∈ Session.module_dir env module
          /\ Session.safer_getattr env module attr = Some (Session.AttrClass cls)
          /\ "create" ∈ Session.class_attrs cls)
  /\ (forall r, r ∈ Session.registrations_for env c ->
        Session.must_be_first_wrapper r = true
        /\ Session.span_type r = Session.UNKNOWN
        /\ (Session.target_class r, Session.method_name r) ∈ Session.known_methods env c
        /\ forall ret exception args kwargs,
             let attrs :=
               Session.call_cost_lambda env (Session.full_scoped_attributes r)
                 ret exception args kwargs in
             (forall k v,
                Session.handle_response env c ret !! k = Some v <->
                attrs !! ((Session.BASE_SCOPE env +:+ ".costs.") +:+ k) = Some v)
             /\ (forall key v, attrs !! key = Some v ->
                   exists k, key = (Session.BASE_SCOPE env +:+ ".costs.") +:+ k)).
Proof.
  intros Himp Hother.
  assert (Hfor : Session.registrations_for env c = Session.expected_registrations env c).
  { apply Forall_cons in Himp as [Hprobe _].
    unfold Session.registrations_for, Session.probe_succeeds. by rewrite Hprobe. }
  split.
  { rewrite track_costs_blocks. unfold bind.
    destruct c; cbn [Session.other_provider] in Hother.
    - rewrite (provider_block_run env Session.CortexCostComputer) by auto.
      rewrite (provider_block_run env Session.OpenAICostComputer) by auto.
      by rewrite <- app_assoc.
    - rewrite (provider_block_run env Session.CortexCostComputer) by auto.
      rewrite (provider_block_run env Session.OpenAICostComputer) by auto.
      by rewrite <- app_assoc. }
  split; [exact Hfor |].
  split; [reflexivity |].
  split; [apply known_methods_openai |].
  intros r Hr. rewrite Hfor in Hr.
  unfold Session.expected_registrations in Hr.
  apply list_elem_of_fmap in Hr as ([cls name] & -> & Hin).
  split; [reflexivity |]. split; [reflexivity |]. split; [exact Hin |].
  intros ret exception args kwargs attrs. subst attrs.
  unfold Session.call_cost_lambda; cbn [Session.full_scoped_attributes
    Session.cost_registration Session.captured_prefix Session.captured_computer fst snd].
  split.
  - intros k v. by rewrite lookup_dict_prefix_keys.
  - intros key v Hkey. apply lookup_dict_prefix_keys_Some in Hkey as (k & -> & _).
    by exists k.
Qed.

(** C8.  [_can_import] answers false exactly when the import raises
    [ImportError].  For a provider whose package is missing in that sense,
    the probe answers false, the provider's block registers nothing and
    raises nothing, and [_track_costs] as a whole does just what the other
    provider's block does. *)
Theorem track_costs_skips_missing (env : Session.PyEnv) (c : Session.CostComputer)
    (reg : Session.Registry) :
  Session.provider_missing env c ->
  (forall name,
     Session._can_import env name reg = (Ok false, reg) <->
     exists e, Session.import_outcome env name = Session.RaisesImportError e)
  /\ Session._can_import env (Session.probe_module c) reg = (Ok false, reg)
  /\ Session.provider_block c env reg = (Ok tt, reg)
  /\ Session._track_costs env reg
      = Session.provider_block (Session.other_provider c) env reg.
Proof.
  intros Hmiss.
  assert (Hprobe : forall name,
     Session._can_import env name reg = (Ok false, reg) <->
     exists e, Session.import_outcome env name = Session.RaisesImportError e).
  { intros name. unfold Session._can_import.
    destruct (Session.import_outcome env name) as [|e|e]; split;
      try (intros Hrun; discriminate Hrun);
      try (intros [e' He']; discriminate He'); eauto. }
  split; [exact Hprobe |].
  split; [by apply Hprobe |].
  split; [by apply provider_block_missing |].
  rewrite track_costs_blocks. destruct c; cbn [Session.other_provider].
  - unfold bind. by rewrite (provider_block_missing env Session.CortexCostComputer).
  - unfold bind.
    destruct (Session.provider_block Session.CortexCostComputer env reg)
      as [[[]|e] reg'] eqn:Hblock; [| reflexivity].
    by rewrite (provider_block_missing env Session.OpenAICostComputer).
Qed.

(** C7, refuted as stated: the OpenAI provider is importable, yet
    [_track_costs] registers nothing for it.  The Cortex block runs first
    and its exception ends the call: in one interpreter the Cortex probe
    succeeds and the unguarded import of [snowflake.cortex._sse_client]
    raises, in the other the probe itself raises a [RuntimeError], which
    [_can_import] does not catch. *)
Lemma track_costs_importable_not_registered :
  Session.provider_importable Samples.cortex_sdk_missing Session.OpenAICostComputer
  /\ Session._track_costs Samples.cortex_sdk_missing []
     = (Raise {| exc_class := "ModuleNotFoundError";
                 exc_msg := "No module named 'snowflake.cortex._sse_client'" |}, [])
  /\ Session.provider_importable Samples.cortex_probe_broken Session.OpenAICostComputer
  /\ Session._track_costs Samples.cortex_probe_broken []
     = (Raise {| exc_class := "RuntimeError"; exc_msg := "bad install" |}, []).
Proof.
  split; [repeat constructor |]. split; [reflexivity |].
  split; [repeat constructor | reflexivity].
Qed.

(** Witness for C7: OpenAI present, Cortex absent. *)
Lemma track_costs_registers_witness :
  Session.provider_importable Samples.openai_only Session.OpenAICostComputer
  /\ Session.provider_missing Samples.openai_only Session.CortexCostComputer
  /\ Session._track_costs Samples.openai_only [] =
       (Ok tt,
        [Session.cost_registration Samples.openai_only Session.OpenAICostComputer
           Samples.Completions "create";
         Session.cost_registration Samples.openai_only Session.OpenAICostComputer
           Samples.Completions "create";
         Session.cost_registration Samples.openai_only Session.OpenAICostComputer
           Samples.ChatCompletions "create"]).
Proof.
  assert (Himp : Session.provider_importable Samples.openai_only
                   Session.OpenAICostComputer)
    by (repeat constructor).
  assert (Hmiss : Session.provider_missing Samples.openai_only
                    Session.CortexCostComputer)
    by (eexists; reflexivity).
  split; [exact Himp |]. split; [exact Hmiss |].
  exact (proj1 (track_costs_registers Samples.openai_only
                  Session.OpenAICostComputer [] Himp (or_intror Hmiss))).
Defined.

(** Witness for C8: the same interpreter, seen from the missing provider. *)
Lemma track_costs_skips_missing_witness :
  Session.provider_missing Samples.openai_only Session.CortexCostComputer
  /\ Session.provider_block Session.CortexCostComputer Samples.openai_only []
     = (Ok tt, []).
Proof.
  assert (Hmiss : Session.provider_missing Samples.openai_only
                    Session.CortexCostComputer)
    by (eexists; reflexivity).
  split; [exact Hmiss |].
  exact (proj1 (proj2 (proj2 (track_costs_skips_missing Samples.openai_only
                  Session.CortexCostComputer [] Hmiss)))).
Defined.

(* --------------------------------------------------------------------- *)
(** ** Name resolution                                                    *)
(* --------------------------------------------------------------------- *)

Section Resolver.
Import Instrument.

Lemma prefix_append (s t : string) : String.prefix s (s +:+ t) = true.
Proof.
  induction s as [|a s IH]; simpl.
  - by destruct t.
  - destruct (Ascii.ascii_dec a a); [exact IH | done].
Qed.




(** The names the unit test expects of the resolver. *)
Example test__get_func_name :
  _get_func_name a_lambda =
    "tests.unit.test_otel_instrument.TestOtelInstrument.test__get_func_name.<locals>.<lambda>"
  /\ _get_func_name a_bound_method =
    "tests.unit.test_otel_instrument.TestOtelInstrument.test__get_func_name"
  /\ _get_func_name DataFrame_transpose = "pandas.core.frame.DataFrame.transpose".
Proof. repeat split. Qed.

End Resolver.


(* --------------------------------------------------------------------- *)
(** ** Instrumented calls                                                 *)
(* --------------------------------------------------------------------- *)

Section Wrapper.
Import Instrument.

Lemma best_baby_attributes (scope : string) (v : PyVal) :
  dict_prefix_keys scope {[ "best_baby" := v ]}
  = {[ scope +:+ "best_baby" := v ]}.
Proof. rewrite dict_prefix_keys_kmap. apply (kmap_singleton (String.append scope)). Qed.

(** A coroutine that only sleeps lets time pass and nothing else. *)
Lemma run_after_awaits (n : nat) (v : PyVal) (st : Tracing) :
  run_coroutine (after_awaits n (mret v)) st = (Ok v, later n st).
Proof.
  revert st. induction n as [|n IH]; intros st.
  - destruct st; reflexivity.
  - cbn [after_awaits run_coroutine].
    unfold mbind, M_bind, bind; cbn [mret M_ret ret suspend modify].
    rewrite IH. f_equal. unfold later; simpl. f_equal. lia.
Qed.

(** A wrapped synchronous call, step by step, with tracing on. *)
Lemma call_sync_run (cfg : Config) (target : Callable)
    (body : list PyVal -> gmap string PyVal -> M Tracing PyVal)
    (args : list PyVal) (kwargs : gmap string PyVal) (st : Tracing) :
  otel_tracing st = true ->
  call_sync cfg target body args kwargs st =
  (let '(sp, st1) := (open_span cfg target st) in
   match sp with
   | Ok sp =>
       let '(outcome, st2) := body args kwargs st1 in
       close_span cfg sp args kwargs outcome st2
   | Raise e => (Raise e, st1)
   end).
Proof.
  intros Hon. unfold call_sync, mbind, M_bind, bind, gets, attempt.
  rewrite Hon. cbn [open_span].
  destruct (body args kwargs _) as [outcome st2]. reflexivity.
Qed.

Lemma call_async_run (cfg : Config) (target : Callable)
    (body : list PyVal -> gmap string PyVal -> Coroutine)
    (args : list PyVal) (kwargs : gmap string PyVal) (st : Tracing) :
  otel_tracing st = true ->
  call_async cfg target body args kwargs st =
  (let '(sp, st1) := (open_span cfg target st) in
   match sp with
   | Ok sp =>
       let '(outcome, st2) := run_coroutine (body args kwargs) st1 in
       close_span cfg sp args kwargs outcome st2
   | Raise e => (Raise e, st1)
   end).
Proof.
  intros Hon. unfold call_async, mbind, M_bind, bind, gets, attempt.
  rewrite Hon. cbn [open_span].
  destruct (run_coroutine (body args kwargs) _) as [outcome st2]. reflexivity.
Qed.

End Wrapper.

(** C1.  With tracing on and base scope ["trulens"], one call of a
    synchronous, non-generator function that returns [v], wrapped by
    [instrument] with the extractor [{"best_baby": ret}], returns [v] and
    exports exactly one span; the span is named by the resolver's qualified
    name of the function and its attributes map
    ["trulens.unknown.best_baby"] to [v]. *)
Theorem instrumented_sync_call (st : Instrument.Tracing)
    (my_function : Instrument.Callable) (v : PyVal)
    (args : list PyVal) (kwargs : gmap string PyVal) :
  Instrument.otel_tracing st = true ->
  Instrument.base_scope st = "trulens" ->
  exists span st',
    Instrument.call_sync Instrument.best_baby_config my_function
      (fun _ _ => mret v) args kwargs st = (Ok v, st')
    /\ Instrument.finished_spans st' = (Instrument.finished_spans st ++ [span])%list
    /\ Instrument.span_name span = Instrument._get_func_name my_function
    /\ Instrument.span_attributes span !! "trulens.unknown.best_baby" = Some v
    /\ Instrument.span_attributes span = {[ "trulens.unknown.best_baby" := v ]}
    /\ Instrument.span_status span = Instrument.StatusOK.
Proof.
  intros Hon Hscope.
  rewrite call_sync_run by done.
  cbn [Instrument.open_span mret M_ret ret Instrument.close_span
       Instrument.base_scope Instrument.finished_spans].
  eexists _, _. split; [reflexivity |].
  cbn [Instrument.finished_spans Instrument.span_name Instrument.span_attributes
       Instrument.span_status Instrument.open_name Instrument.best_baby_config
       Instrument.spanName Instrument.attributeExtractor Instrument.spanKind
       Instrument.span_kind_scope default from_option id].
  rewrite Hscope, best_baby_attributes.
  change ("trulens" +:+ "." +:+ "unknown" +:+ "." +:+ "best_baby")
    with "trulens.unknown.best_baby".
  repeat split.
Qed.

(** Witness for C1: the test [test_sync_non_generator_function]. *)
Lemma instrumented_sync_call_witness :
  exists span st',
    Instrument.call_sync Instrument.best_baby_config Instrument.my_function_sync
      Instrument.my_function_sync_body [] ∅ Instrument.after_setUp
      = (Ok (PyStr "Kojikun"), st')
    /\ Instrument.finished_spans st' = [span]
    /\ Instrument.span_name span =
       "tests.unit.test_otel_instrument.TestOtelInstrument.test_sync_non_generator_function.<locals>.my_function"
    /\ Instrument.span_attributes span !! "trulens.unknown.best_baby"
       = Some (PyStr "Kojikun").
Proof.
  destruct (instrumented_sync_call Instrument.after_setUp Instrument.my_function_sync
              (PyStr "Kojikun") [] ∅ eq_refl eq_refl)
    as (span & st' & Hrun & Hspans & Hname & Hattr & _).
  exists span, st'. split; [exact Hrun |]. split; [exact Hspans |].
  split; [exact Hname | exact Hattr].
Defined.

(** C3.  Made asynchronous, with any number of suspension points before it
    returns [v], the wrapped function behaves towards its span as the
    synchronous one does: the call returns [v] and exports exactly one
    span, named by the resolver's qualified name of the function, with
    ["trulens.unknown.best_baby"] equal to [v]; attributes and status are
    those of the synchronous call's span, which differs only in the time at
    which it ends. *)
Theorem instrumented_async_call (st : Instrument.Tracing)
    (my_function : Instrument.Callable) (v : PyVal) (awaits : nat)
    (args : list PyVal) (kwargs : gmap string PyVal) :
  Instrument.otel_tracing st = true ->
  Instrument.base_scope st = "trulens" ->
  exists span_async span_sync st_async st_sync,
    Instrument.call_async Instrument.best_baby_config my_function
      (fun _ _ => Instrument.after_awaits awaits (mret v)) args kwargs st
      = (Ok v, st_async)
    /\ Instrument.call_sync Instrument.best_baby_config my_function
         (fun _ _ => mret v) args kwargs st = (Ok v, st_sync)
    /\ Instrument.finished_spans st_async
       = (Instrument.finished_spans st ++ [span_async])%list
    /\ Instrument.finished_spans st_sync
       = (Instrument.finished_spans st ++ [span_sync])%list
    /\ Instrument.span_name span_async = Instrument._get_func_name my_function
    /\ Instrument.span_name span_async = Instrument.span_name span_sync
    /\ Instrument.span_attributes span_async !! "trulens.unknown.best_baby" = Some v
    /\ Instrument.span_attributes span_async = Instrument.span_attributes span_sync
    /\ Instrument.span_status span_async = Instrument.span_status span_sync
    /\ Instrument.start_time span_async = Instrument.start_time span_sync
    /\ Instrument.end_time span_async = awaits + Instrument.end_time span_sync
    /\ Instrument.active_span st_async = Instrument.active_span st.
Proof.
  intros Hon Hscope.
  rewrite call_async_run, call_sync_run by done.
  cbn [Instrument.open_span]. rewrite run_after_awaits.
  cbn [mret M_ret ret Instrument.close_span Instrument.later
       Instrument.base_scope Instrument.finished_spans Instrument.clock].
  eexists _, _, _, _. split; [reflexivity |]. split; [reflexivity |].
  cbn [Instrument.finished_spans Instrument.span_name Instrument.span_attributes
       Instrument.span_status Instrument.start_time Instrument.end_time
       Instrument.active_span Instrument.open_parent Instrument.open_start
       Instrument.open_name Instrument.best_baby_config
       Instrument.spanName Instrument.attributeExtractor Instrument.spanKind
       Instrument.span_kind_scope default from_option id].
  rewrite Hscope, best_baby_attributes.
  change ("trulens" +:+ "." +:+ "unknown" +:+ "." +:+ "best_baby")
    with "trulens.unknown.best_baby".
  repeat split.
Qed.

(** Witness for C3: the test [test_async_non_generator_function]. *)
Lemma instrumented_async_call_witness :
  exists span st',
    Instrument.call_async Instrument.best_baby_config Instrument.my_function_async
      Instrument.my_function_async_body [] ∅ Instrument.after_setUp
      = (Ok (PyStr "Kojikun"), st')
    /\ Instrument.finished_spans st' = [span]
    /\ Instrument.span_name span =
       "tests.unit.test_otel_instrument.TestOtelInstrument.test_async_non_generator_function.<locals>.my_function"
    /\ Instrument.span_attributes span !! "trulens.unknown.best_baby"
       = Some (PyStr "Kojikun").
Proof.
  destruct (instrumented_async_call Instrument.after_setUp Instrument.my_function_async
              (PyStr "Kojikun") 1 [] ∅ eq_refl eq_refl)
    as (span & _ & st' & _ & Hrun & _ & Hspans & _ & Hname & _ & Hattr & _).
  exists span, st'. split; [exact Hrun |]. split; [exact Hspans |].
  split; [exact Hname | exact Hattr].
Defined.

(* ===================================================================== *)
(** * Further properties of the session module                            *)
(* ===================================================================== *)

(* --------------------------------------------------------------------- *)
(** ** The bootstrap, whatever its outcome                                *)
(* --------------------------------------------------------------------- *)

Section BootstrapFrame.
Context `{ext : Session.Externals}.
Import Session Scenarios.

Lemma after_set_up_lookup_old (w : Process) (q : ref) (o : Obj) :
  heap w !! q = Some o -> heap (after_set_up w) !! q = Some o.
Proof.
  intros Hq. unfold after_set_up; simpl.
  rewrite lookup_insert_ne by (symmetry; eapply next_ref_neq; eauto). done.
Qed.

Lemma after_set_up_size (w : Process) :
  size (heap (after_set_up w)) = S (size (heap w)).
Proof. unfold after_set_up; simpl. apply map_size_insert_None, next_ref_unused. Qed.

(** X1.  Whether it returns or raises, [_set_up_tracer_provider] allocates
    exactly one new object, the provider it built, at a reference unused
    before; every object already on the heap is left as it was; the log and
    the API's proxy are untouched; and a provider that was installed before
    the call is still the installed one after it. *)
Theorem set_up_tracer_provider_frame (w : Process) :
  exists r w',
    _set_up_tracer_provider w = (r, w')
    /\ heap w !! next_ref w = None
    /\ heap w' !! next_ref w = Some (TracerProvider trulens_resource [])
    /\ dom (heap w') = {[ next_ref w ]} ∪ dom (heap w)
    /\ (forall q o, heap w !! q = Some o -> heap w' !! q = Some o)
    /\ log_records w' = log_records w
    /\ _PROXY_TRACER_PROVIDER w' = _PROXY_TRACER_PROVIDER w
    /\ (forall old, _TRACER_PROVIDER w = Some old -> _TRACER_PROVIDER w' = Some old).
Proof.
  rewrite set_up_tracer_provider_run. eexists _, _. split; [reflexivity |].
  split; [apply next_ref_unused |].
  split; [unfold after_set_up; simpl; apply lookup_insert_eq |].
  split; [unfold after_set_up; simpl; apply dom_insert_L |].
  split; [apply after_set_up_lookup_old |].
  split; [reflexivity |]. split; [reflexivity |].
  intros old Hold. unfold after_set_up; simpl. by rewrite Hold.
Qed.

(** With an SDK provider installed, any number of calls returns it. *)
Lemma repeat_set_up_installed (n : nat) (w : Process) (p : ref)
    (res : Resource) (procs : list SpanProcessor) :
  _TRACER_PROVIDER w = Some p ->
  heap w !! p = Some (TracerProvider res procs) ->
  exists w',
    repeat_call n _set_up_tracer_provider w = (Ok (replicate n p), w')
    /\ _TRACER_PROVIDER w' = Some p
    /\ heap w' !! p = Some (TracerProvider res procs)
    /\ size (heap w') = n + size (heap w).
Proof.
  revert w. induction n as [|n IH]; intros w Hglobal Hp.
  - exists w. repeat split; done.
  - cbn [repeat_call]. unfold mbind, M_bind, bind.
    rewrite set_up_tracer_provider_run, Hglobal; cbn [default from_option id].
    rewrite (isinstance_after_set_up_old w p _ Hp).
    destruct (IH (after_set_up w)) as (w' & Hrun & Hg' & Hp' & Hsize).
    { unfold after_set_up; simpl. by rewrite Hglobal. }
    { by apply after_set_up_lookup_old. }
    rewrite Hrun. exists w'. split; [reflexivity |].
    split; [exact Hg' |]. split; [exact Hp' |].
    rewrite Hsize, after_set_up_size. lia.
Qed.

(** X2.  Starting with no provider installed, every one of [n + 1]
    consecutive calls of [_set_up_tracer_provider] succeeds and returns the
    same provider, the one the first call created; it stays the global
    provider, and each call leaves one more object on the heap. *)
Theorem repeat_set_up_returns_first (n : nat) (w : Process) :
  _TRACER_PROVIDER w = None ->
  exists w',
    repeat_call (S n) _set_up_tracer_provider w
      = (Ok (replicate (S n) (next_ref w)), w')
    /\ _TRACER_PROVIDER w' = Some (next_ref w)
    /\ heap w' !! next_ref w = Some (TracerProvider trulens_resource [])
    /\ size (heap w') = S n + size (heap w).
Proof.
  intros Hnone. cbn [repeat_call]. unfold mbind, M_bind, bind.
  rewrite set_up_tracer_provider_first by done.
  destruct (repeat_set_up_installed n (after_set_up w) (next_ref w)
              trulens_resource []) as (w' & Hrun & Hg' & Hp' & Hsize).
  { unfold after_set_up; simpl. by rewrite Hnone. }
  { unfold after_set_up; simpl. apply lookup_insert_eq. }
  rewrite Hrun. exists w'. split; [reflexivity |].
  split; [exact Hg' |]. split; [exact Hp' |].
  rewrite Hsize, after_set_up_size. lia.
Qed.

(** X3.  A failed set-up cannot be repaired by calling again: in a process
    whose installed provider is an object on the heap, if
    [_set_up_tracer_provider] raises then the same call made afterwards
    raises the same error, and the installed provider is still the same. *)
Theorem set_up_tracer_provider_failure_sticks (w w' : Process) (e : PyExc) :
  (forall old, _TRACER_PROVIDER w = Some old -> is_Some (heap w !! old)) ->
  _set_up_tracer_provider w = (Raise e, w') ->
  e = ValueError "Received a TracerProvider of an unexpected type!"
  /\ _TRACER_PROVIDER w' = _TRACER_PROVIDER w
  /\ (forall old, _TRACER_PROVIDER w' = Some old -> is_Some (heap w' !! old))
  /\ exists w'', _set_up_tracer_provider w' = (Raise e, w'').
Proof.
  intros Hwf. rewrite set_up_tracer_provider_run.
  destruct (_TRACER_PROVIDER w) as [old|] eqn:Hglobal; cbn [default from_option id].
  - destruct (Hwf old eq_refl) as [o Ho].
    rewrite (isinstance_after_set_up_old w old o Ho).
    destruct o as [res procs | cls]; intros Hrun; inversion Hrun; subst; clear Hrun.
    assert (Hg' : _TRACER_PROVIDER (after_set_up w) = Some old).
    { unfold after_set_up; simpl. by rewrite Hglobal. }
    pose proof (after_set_up_lookup_old w old _ Ho) as Ho'.
    split; [reflexivity |]. split; [exact Hg' |].
    split. { intros old' Hold'. rewrite Hg' in Hold'. inversion Hold'; subst. eauto. }
    rewrite set_up_tracer_provider_run, Hg'; cbn [default from_option id].
    rewrite (isinstance_after_set_up_old _ old _ Ho'). eauto.
  - rewrite isinstance_after_set_up_new. intros Hrun; discriminate Hrun.
Qed.

End BootstrapFrame.

(** Witness for X2: three calls in a fresh process. *)
Lemma repeat_set_up_returns_first_witness :
  Session._TRACER_PROVIDER Samples.fresh_process = None
  /\ exists w',
       Scenarios.repeat_call 3 (@Session._set_up_tracer_provider Samples.externals)
         Samples.fresh_process = (Ok [1; 1; 1], w')
       /\ Session._TRACER_PROVIDER w' = Some 1.
Proof.
  split; [reflexivity |].
  destruct (@repeat_set_up_returns_first Samples.externals 2 Samples.fresh_process
              eq_refl) as (w' & Hrun & Hglobal & _).
  exists w'. split; [exact Hrun | exact Hglobal].
Defined.

(** Witness for X3: the process with a foreign provider installed. *)
Lemma set_up_tracer_provider_failure_sticks_witness :
  exists w' w'',
    @Session._set_up_tracer_provider Samples.externals Samples.foreign_installed
      = (Raise (ValueError "Received a TracerProvider of an unexpected type!"), w')
    /\ @Session._set_up_tracer_provider Samples.externals w'
      = (Raise (ValueError "Received a TracerProvider of an unexpected type!"), w'').
Proof.
  assert (Hwf : forall old,
            Session._TRACER_PROVIDER Samples.foreign_installed = Some old ->
            is_Some (Session.heap Samples.foreign_installed !! old)).
  { intros old Hold. inversion Hold; subst. eexists; reflexivity. }
  assert (Hrun : @Session._set_up_tracer_provider Samples.externals
                   Samples.foreign_installed
                 = (Raise (ValueError "Received a TracerProvider of an unexpected type!"),
                    @Session.after_set_up Samples.externals Samples.foreign_installed)).
  { rewrite set_up_tracer_provider_run.
    change (Session._TRACER_PROVIDER Samples.foreign_installed) with (Some 1);
      cbn [default from_option id].
    by rewrite (isinstance_after_set_up_old _ 1
                  (Session.ForeignProvider "NoOpTracerProvider")). }
  destruct (@set_up_tracer_provider_failure_sticks Samples.externals _ _ _ Hwf Hrun)
    as (_ & _ & _ & w'' & Hagain).
  eexists _, w''. split; [exact Hrun | exact Hagain].
Defined.

(* --------------------------------------------------------------------- *)
(** ** The cost hook, whatever the interpreter holds                      *)
(* --------------------------------------------------------------------- *)

Section CostHookMore.
Import Session Scenarios.
Variable env : PyEnv.

Lemma py_import_raises {S} (name : string) (e : PyExc) (s : S) :
  import_raises env name e -> py_import env name s = (Raise e, s).
Proof. intros [He | He]; unfold py_import; by rewrite He. Qed.

Lemma py_import_cases {S} (name : string) (s : S) :
  py_import env name s = (Ok tt, s) \/ exists e, py_import env name s = (Raise e, s).
Proof.
  unfold py_import. destruct (import_outcome env name); [by left | right; eauto ..].
Qed.

Lemma track_costs_run (reg : Registry) :
  (forall c, provider_importable env c \/ provider_missing env c) ->
  _track_costs env reg =
  (Ok tt, (reg ++ (registrations_for env CortexCostComputer
                   ++ registrations_for env OpenAICostComputer))%list).
Proof.
  intros Hall. rewrite track_costs_blocks. unfold bind.
  rewrite (provider_block_run env CortexCostComputer) by auto.
  rewrite (provider_block_run env OpenAICostComputer) by auto.
  by rewrite <- app_assoc.
Qed.

(** X4.  [_can_import] swallows [ImportError] only: any other exception the
    import raises comes out of it unchanged, and when that happens on the
    first probe [_track_costs] raises it too, having registered nothing,
    whether or not the OpenAI provider is importable. *)
Theorem track_costs_probe_error (reg : Registry) (name : string) (e : PyExc) :
  import_outcome env name = RaisesOther e ->
  _can_import env name reg = (Raise e, reg)
  /\ (name = probe_module CortexCostComputer -> _track_costs env reg = (Raise e, reg)).
Proof.
  intros He. split.
  - unfold _can_import. by rewrite He.
  - intros ->. cbn [probe_module] in He.
    unfold _track_costs, cortex_block, _can_import, mbind, M_bind, bind.
    by rewrite He.
Qed.

(** X5.  A successful probe does not guard the imports that follow it, and
    [_track_costs] is not atomic: if the OpenAI probe succeeds but
    [import openai] raises, [_track_costs] raises that exception after the
    registrations for Cortex have been made, and they stay. *)
Theorem track_costs_openai_import_fails (reg : Registry) (e : PyExc) :
  provider_importable env CortexCostComputer \/ provider_missing env CortexCostComputer ->
  import_outcome env (probe_module OpenAICostComputer) = Imported ->
  import_raises env "openai" e ->
  _track_costs env reg =
    (Raise e, (reg ++ registrations_for env CortexCostComputer)%list).
Proof.
  intros Hcortex Hprobe Hraise. cbn [probe_module] in Hprobe.
  rewrite track_costs_blocks. unfold bind.
  rewrite (provider_block_run env CortexCostComputer) by done.
  unfold provider_block, openai_block, _can_import, openai_hook, mbind, M_bind, bind.
  rewrite Hprobe; cbn [mret M_ret ret].
  by rewrite (py_import_raises "openai" e) by done.
Qed.

Lemma create_classes_have_create (module : SdkModule) :
  Forall (fun c => "create" ∈ class_attrs c) (create_classes env module).
Proof.
  apply Forall_forall. intros c Hc.
  unfold create_classes in Hc. apply list_elem_of_omap in Hc as (attr & _ & Hc).
  unfold create_class in Hc.
  destruct (safer_getattr env module attr) as [[c'|v]|]; try discriminate.
  unfold hasattr in Hc. case_bool_decide; [| discriminate].
  by inversion Hc; subst.
Qed.

Lemma expected_registrations_are_cost_hooks (c : CostComputer) :
  Forall (is_cost_hook env) (expected_registrations env c).
Proof.
  unfold expected_registrations. apply Forall_fmap.
  destruct c; cbn [known_methods].
  - apply Forall_singleton. unfold is_cost_hook; cbn. auto 10.
  - apply Forall_fmap. rewrite !Forall_app.
    repeat split;
      (eapply Forall_impl; [apply create_classes_have_create |]);
      intros cls Hcls; unfold is_cost_hook; cbn; auto 10.
Qed.

(** Each block only appends registrations, all of the expected kind: it
    appends nothing if it stops early, the expected ones otherwise. *)
Lemma provider_block_appends (c : CostComputer) (reg : Registry) :
  exists r added,
    provider_block c env reg = (r, (reg ++ added)%list)
    /\ Forall (is_cost_hook env) added.
Proof.
  assert (Hstop : forall r : Result unit,
            exists r' added, (r, reg) = (r', (reg ++ added)%list)
                             /\ Forall (is_cost_hook env) added).
  { intros r. exists r, []. rewrite app_nil_r. by split. }
  assert (Hdone : exists r' added,
            (Ok tt, (reg ++ expected_registrations env c)%list)
              = (r', (reg ++ added)%list)
            /\ Forall (is_cost_hook env) added).
  { eexists _, _. split; [reflexivity |]. apply expected_registrations_are_cost_hooks. }
  destruct c.
  - unfold provider_block, cortex_block, _can_import, cortex_hook,
      mbind, M_bind, bind.
    destruct (import_outcome env "trulens.providers.cortex.endpoint") eqn:Hprobe;
      cbn [mret M_ret ret raise]; [| apply Hstop ..].
    destruct (py_import_cases "snowflake.cortex._sse_client" reg) as [-> | [e ->]];
      [| apply Hstop].
    destruct (py_import_cases "trulens.experimental.otel_tracing.core.instrument" reg)
      as [-> | [e ->]]; [| apply Hstop].
    rewrite (py_import_ok env _ reg Hprobe).
    rewrite instrument_method_run. exact Hdone.
  - unfold provider_block, openai_block, _can_import, openai_hook,
      mbind, M_bind, bind.
    destruct (import_outcome env "trulens.providers.openai.endpoint") eqn:Hprobe;
      cbn [mret M_ret ret raise]; [| apply Hstop ..].
    destruct (py_import_cases "openai" reg) as [-> | [e ->]]; [| apply Hstop].
    destruct (py_import_cases "openai.resources" reg) as [-> | [e ->]]; [| apply Hstop].
    destruct (py_import_cases "openai.resources.chat" reg) as [-> | [e ->]];
      [| apply Hstop].
    destruct (py_import_cases "trulens.experimental.otel_tracing.core.instrument" reg)
      as [-> | [e ->]]; [| apply Hstop].
    rewrite (py_import_ok env _ reg Hprobe).
    rewrite openai_modules_run, <- expected_registrations_openai. exact Hdone.
Qed.

(** X6.  In every interpreter and with every outcome, [_track_costs] only
    adds to the registrations: what was registered before is kept, in
    order, and every call it adds has [must_be_first_wrapper=True], span
    type [UNKNOWN], the ["<BASE_SCOPE>.costs."] prefix, and targets either
    [SSEClient.events] or the ["create"] of a class that has such an
    attribute. *)
Theorem track_costs_only_adds_cost_hooks (reg : Registry) :
  exists r added,
    _track_costs env reg = (r, (reg ++ added)%list)
    /\ Forall (is_cost_hook env) added.
Proof.
  rewrite track_costs_blocks. unfold bind.
  destruct (provider_block_appends CortexCostComputer reg)
    as (r1 & added1 & -> & Hadded1).
  destruct r1 as [[]|e].
  - destruct (provider_block_appends OpenAICostComputer (reg ++ added1)%list)
      as (r2 & added2 & -> & Hadded2).
    exists r2, (added1 ++ added2)%list. split; [by rewrite app_assoc |].
    by apply Forall_app.
  - eauto.
Qed.

(** X7.  [_track_costs] keeps no record of having run: called twice where
    each provider is importable or missing, it makes every
    [instrument_method] call twice. *)
Theorem track_costs_twice (reg : Registry) :
  (forall c, provider_importable env c \/ provider_missing env c) ->
  (_track_costs env;; _track_costs env) reg =
  (Ok tt,
   (reg ++ (registrations_for env CortexCostComputer
            ++ registrations_for env OpenAICostComputer)
        ++ (registrations_for env CortexCostComputer
            ++ registrations_for env OpenAICostComputer))%list).
Proof.
  intros Hall. unfold mbind, M_bind, bind.
  rewrite track_costs_run by done. rewrite track_costs_run by done.
  by rewrite <- app_assoc.
Qed.

(** X8.  The extractor built by [_track_costs] neither drops nor merges
    fields: its result has exactly as many entries as the dict
    [handle_response(ret)] returned, every key of the result starts with
    the captured prefix, and an empty dict gives an empty result. *)
Theorem cost_lambda_keeps_every_field (f : CostLambda) (ret : PyVal)
    (exception : option PyExc) (args : list PyVal) (kwargs : gmap string PyVal) :
  size (call_cost_lambda env f ret exception args kwargs)
    = size (handle_response env (captured_computer f) ret)
  /\ (forall key, is_Some (call_cost_lambda env f ret exception args kwargs !! key) ->
        String.prefix (captured_prefix f) key = true)
  /\ (handle_response env (captured_computer f) ret = ∅ ->
        call_cost_lambda env f ret exception args kwargs = ∅).
Proof.
  unfold call_cost_lambda. split; [| split].
  - rewrite dict_prefix_keys_kmap.
    rewrite <- !length_map_to_list.
    rewrite (map_to_list_kmap (String.append (captured_prefix f))).
    by rewrite length_fmap.
  - intros key [v Hkey].
    apply lookup_dict_prefix_keys_Some in Hkey as (k & -> & _).
    apply prefix_append.
  - intros ->. rewrite dict_prefix_keys_kmap. apply kmap_empty.
Qed.

Lemma length_filter_pair_create (c : PyClass) (l : list PyClass) :
  length (filter (fun m => m = (c, "create")) ((fun cls => (cls, "create")) <$> l))
  = length (filter (fun cls => cls = c) l).
Proof.
  induction l as [|x l IH]; [reflexivity |].
  rewrite fmap_cons, !filter_cons.
  destruct (decide (x = c)) as [-> | Hne].
  - rewrite decide_True by done. simpl. by rewrite IH.
  - rewrite decide_False by congruence. exact IH.
Qed.

Lemma length_filter_create_classes (c : PyClass) (module : SdkModule) :
  length (filter (fun cls => cls = c) (create_classes env module))
  = if hasattr c "create" then length (names_bound_to env c module) else 0.
Proof.
  unfold create_classes, names_bound_to.
  induction (module_dir env module) as [|attr names IH].
  { by destruct (hasattr c "create"). }
  cbn [omap list_omap]. rewrite (filter_cons _ attr).
  unfold create_class at 1.
  destruct (safer_getattr env module attr) as [[c'|v]|] eqn:Hget.
  - destruct (hasattr c' "create") eqn:Hc'.
    + rewrite filter_cons.
      destruct (decide (c' = c)) as [-> | Hne].
      * rewrite decide_True by done. rewrite Hc' in *. simpl. by rewrite IH.
      * rewrite decide_False by congruence. exact IH.
    + destruct (decide (Some (AttrClass c') = Some (AttrClass c))) as [Heq | Hne].
      * inversion Heq; subst. rewrite Hc' in *. exact IH.
      * exact IH.
  - rewrite decide_False by discriminate. exact IH.
  - rewrite decide_False by discriminate. exact IH.
Qed.

Lemma known_methods_openai_count (c : PyClass) :
  length (filter (fun m => m = (c, "create")) (known_methods env OpenAICostComputer))
  = if hasattr c "create"
    then length (names_bound_to env c mod_openai)
         + length (names_bound_to env c mod_resources)
         + length (names_bound_to env c mod_chat)
    else 0.
Proof.
  cbn [known_methods]. rewrite length_filter_pair_create.
  rewrite !filter_app, !length_app, !length_filter_create_classes.
  destruct (hasattr c "create"); lia.
Qed.

(** Counting the registrations of ["create"] on [c] among those made for a
    provider amounts to counting the pair among its known methods. *)
Lemma length_filter_expected (p : CostComputer) (c : PyClass) :
  length (filter (fun r => target_class r = c /\ method_name r = "create")
            (expected_registrations env p))
  = length (filter (fun m => m = (c, "create")) (known_methods env p)).
Proof.
  unfold expected_registrations.
  induction (known_methods env p) as [|[cls name] l IH]; [reflexivity |].
  rewrite fmap_cons.
  destruct (decide (cls = c /\ name = "create")) as [[-> ->] | Hne].
  - rewrite (filter_cons_True _ (cost_registration env p _ _)) by (cbn; done).
    rewrite (filter_cons_True _ (c, "create")) by done.
    cbn [length]. f_equal. exact IH.
  - rewrite (filter_cons_False _ (cost_registration env p _ _)) by (cbn; done).
    rewrite (filter_cons_False _ (cls, name))
      by (intros Heq; inversion Heq; subst; auto).
    exact IH.
Qed.

(** X9.  Where the OpenAI provider is importable (and the Cortex one is
    importable or missing), the calls [_track_costs] adds contain
    [instrument_method(c, "create", ...)] once for every attribute name
    bound to the class [c] in [dir(openai)], [dir(openai.resources)] and
    [dir(openai.resources.chat)] taken together, if [c] has a ["create"]
    attribute, and never otherwise: a class exposed by several modules, or
    under several names, is registered that many times. *)
Theorem openai_registered_once_per_name (c : PyClass) (reg : Registry) :
  provider_importable env OpenAICostComputer ->
  provider_importable env CortexCostComputer \/ provider_missing env CortexCostComputer ->
  exists added,
    _track_costs env reg = (Ok tt, (reg ++ added)%list)
    /\ length (filter (fun r => target_class r = c /\ method_name r = "create") added)
       = if hasattr c "create"
         then length (names_bound_to env c mod_openai)
              + length (names_bound_to env c mod_resources)
              + length (names_bound_to env c mod_chat)
         else 0.
Proof.
  intros Hopenai Hcortex.
  exists (registrations_for env CortexCostComputer
          ++ registrations_for env OpenAICostComputer)%list.
  split.
  { apply track_costs_run. intros []; auto. }
  assert (Hcount_cortex :
    length (filter (fun r => target_class r = c /\ method_name r = "create")
              (registrations_for env CortexCostComputer)) = 0).
  { unfold registrations_for.
    destruct (probe_succeeds env CortexCostComputer); [| reflexivity].
    rewrite length_filter_expected. cbn [known_methods].
    rewrite filter_cons, decide_False by (intros Heq; discriminate Heq).
    reflexivity. }
  assert (Hfor : registrations_for env OpenAICostComputer
                 = expected_registrations env OpenAICostComputer).
  { apply Forall_cons in Hopenai as [Hprobe _].
    unfold registrations_for, probe_succeeds. by rewrite Hprobe. }
  rewrite filter_app, length_app, Hfor.
  rewrite <- known_methods_openai_count.
  rewrite <- (length_filter_expected OpenAICostComputer c).
  change (?n = ?m) with (n = 0 + m). f_equal. exact Hcount_cortex.
Qed.

End CostHookMore.

(** Witness for X4: the Cortex probe fails with a [RuntimeError]. *)
Lemma track_costs_probe_error_witness :
  let boom := {| exc_class := "RuntimeError"; exc_msg := "bad install" |} in
  let env :=
    {| Session.BASE_SCOPE := "trulens";
       Session.import_outcome := fun name =>
         if decide (name = "trulens.providers.cortex.endpoint")
         then Session.RaisesOther boom else Session.Imported;
       Session.SSEClient := Samples.SSEClient_class;
       Session.module_dir := Session.module_dir Samples.openai_only;
       Session.safer_getattr := Samples.openai_getattr;
       Session.handle_response := fun _ _ => Samples.usage |} in
  Session._track_costs env [] = (Raise boom, []).
Proof.
  intros boom env.
  exact (proj2 (track_costs_probe_error env [] "trulens.providers.cortex.endpoint"
                  boom eq_refl) eq_refl).
Defined.

(** Witness for X5: the provider package is there, the [openai] SDK is not. *)
Lemma track_costs_openai_import_fails_witness :
  let missing := {| exc_class := "ModuleNotFoundError";
                    exc_msg := "No module named 'openai'" |} in
  let env :=
    {| Session.BASE_SCOPE := "trulens";
       Session.import_outcome := fun name =>
         if decide (name = "openai")
         then Session.RaisesImportError missing else Session.Imported;
       Session.SSEClient := Samples.SSEClient_class;
       Session.module_dir := Session.module_dir Samples.openai_only;
       Session.safer_getattr := Samples.openai_getattr;
       Session.handle_response := fun _ _ => Samples.usage |} in
  Session._track_costs env [] =
    (Raise missing,
     [Session.cost_registration env Session.CortexCostComputer
        Samples.SSEClient_class "events"]).
Proof.
  intros missing env.
  refine (track_costs_openai_import_fails env [] missing _ eq_refl _).
  - left. repeat constructor.
  - left. reflexivity.
Defined.

(** Witness for X7: the interpreter with OpenAI only. *)
Lemma track_costs_twice_witness :
  exists regs,
    (Session._track_costs Samples.openai_only;;
     Session._track_costs Samples.openai_only) [] = (Ok tt, regs)
    /\ length regs = 6.
Proof.
  assert (Hall : forall c,
            Session.provider_importable Samples.openai_only c
            \/ Session.provider_missing Samples.openai_only c).
  { intros [].
    - right. eexists; reflexivity.
    - left. repeat constructor. }
  eexists. split; [exact (track_costs_twice Samples.openai_only [] Hall) |].
  reflexivity.
Defined.

(* --------------------------------------------------------------------- *)
(** ** Exporter set-up: the paths around the exporter check               *)
(* --------------------------------------------------------------------- *)

Section ExporterSetUpMore.
Context `{ext : Session.Externals}.
Import Session Scenarios.

(** The whole method, outcome by outcome. *)
Lemma set_up_otel_exporter_run (connector : DBConnector) (exporter : ExporterVal)
    (self : TruSession) (w : Process) :
  _set_up_otel_exporter connector exporter (self, w) =
  (let e' := effective_exporter connector exporter in
   let w0 := (logger_info (exporter_log_line exporter) w).2 in
   let self1 := set_otel_exporter e' (_experimental_feature OTEL_TRACING true true self) in
   let g := default (next_ref w) (_TRACER_PROVIDER w) in
   if isinstance_TracerProvider (heap (after_set_up w0)) g
   then
     if truthy e' && negb (isinstance_SpanExporter e')
     then (Raise (ValueError "Provided exporter must be an OpenTelemetry SpanExporter"),
           (set_tracer_provider_attr g self1, after_set_up w0))
     else (Ok tt,
           (set_span_processor_attr (BatchSpanProcessor e')
              (set_tracer_provider_attr g self1),
            (add_span_processor g (BatchSpanProcessor e') (after_set_up w0)).2))
   else (Raise (ValueError "Received a TracerProvider of an unexpected type!"),
         (self1, after_set_up w0))).
Proof.
  unfold _set_up_otel_exporter, effective_exporter, exporter_log_line.
  unfold mbind, M_bind, bind, on_self, on_process, modify; cbn [fst snd].
  set (msg := UNICODE_CHECK +:+ " OpenTelemetry exporter set: " +:+
                class_name (class_of exporter)).
  set (w0 := (logger_info msg w).2).
  assert (Hw0 : logger_info msg w = (Ok tt, w0)) by reflexivity.
  rewrite Hw0, set_up_tracer_provider_run.
  change (_TRACER_PROVIDER w0) with (_TRACER_PROVIDER w).
  change (next_ref w0) with (next_ref w).
  cbv zeta.
  destruct (isinstance_TracerProvider _ _); [| reflexivity].
  cbn [fst snd].
  destruct (andb _ _); reflexivity.
Qed.

Lemma acceptable_exporter_passes (connector : DBConnector) (exporter : ExporterVal) :
  acceptable_exporter exporter ->
  truthy (effective_exporter connector exporter)
    && negb (isinstance_SpanExporter (effective_exporter connector exporter)) = false.
Proof.
  unfold effective_exporter.
  intros Hacc. destruct (truthy exporter) eqn:Ht; cbn [negb truthy isinstance_SpanExporter andb].
  - destruct Hacc as [Hfalsy | Hinst]; [congruence |].
    by rewrite Ht, Hinst.
  - reflexivity.
Qed.

Lemma provider_after_bootstrap_lookup (w : Process) (g : ref)
    (res : Resource) (procs : list SpanProcessor) :
  provider_after_bootstrap w g res procs ->
  default (next_ref w) (_TRACER_PROVIDER w) = g
  /\ heap (after_set_up w) !! g = Some (TracerProvider res procs).
Proof.
  intros [(Hnone & -> & -> & ->) | (Hsome & Hg)].
  - rewrite Hnone. split; [reflexivity |].
    unfold after_set_up; simpl. apply lookup_insert_eq.
  - rewrite Hsome. split; [reflexivity |]. by apply after_set_up_lookup_old.
Qed.

(** The accepting path, with the state it leaves. *)
Lemma set_up_otel_exporter_success (connector : DBConnector) (exporter : ExporterVal)
    (self : TruSession) (w : Process) (g : ref)
    (res : Resource) (procs : list SpanProcessor) :
  acceptable_exporter exporter ->
  provider_after_bootstrap w g res procs ->
  exists self' w',
    _set_up_otel_exporter connector exporter (self, w) = (Ok tt, (self', w'))
    /\ experimental_flags self' OTEL_TRACING
       = {| flag_value := true; flag_frozen := true |}
    /\ _experimental_otel_exporter self'
       = Some (effective_exporter connector exporter)
    /\ _experimental_tracer_provider self' = Some g
    /\ _experimental_otel_span_processor self'
       = Some (BatchSpanProcessor (effective_exporter connector exporter))
    /\ _TRACER_PROVIDER w' = Some g
    /\ heap w' !! g
       = Some (TracerProvider res
                 (procs ++ [BatchSpanProcessor (effective_exporter connector exporter)])).
Proof.
  intros Hacc Hboot.
  rewrite set_up_otel_exporter_run; cbv zeta.
  set (w0 := (logger_info (exporter_log_line exporter) w).2).
  destruct (provider_after_bootstrap_lookup w g res procs Hboot) as [Hg Hlook].
  assert (Hlook0 : heap (after_set_up w0) !! g = Some (TracerProvider res procs))
    by exact Hlook.
  rewrite Hg.
  unfold isinstance_TracerProvider at 1. rewrite Hlook0.
  rewrite acceptable_exporter_passes by done.
  eexists _, _. split; [reflexivity |].
  split; [reflexivity |]. split; [reflexivity |]. split; [reflexivity |].
  split; [reflexivity |].
  unfold add_span_processor, modify; cbn [snd]. rewrite Hlook0.
  split.
  - unfold set_heap; cbn [_TRACER_PROVIDER].
    change (_TRACER_PROVIDER (after_set_up w0))
      with (Some (default (next_ref w) (_TRACER_PROVIDER w))).
    by rewrite Hg.
  - unfold set_heap; cbn [heap]. apply lookup_insert_eq.
Qed.

(** X10.  With an acceptable exporter argument (falsy, or a
    [SpanExporter]) and a bootstrap that yields an SDK provider,
    [_set_up_otel_exporter] returns normally; the session then holds the
    exporter in effect (the default [TruLensOTELSpanExporter(connector)]
    for a falsy argument), the global provider and a
    [BatchSpanProcessor] over that exporter, and that processor is the last
    one registered on the global provider, after those it already had. *)
Theorem set_up_otel_exporter_registers (connector : DBConnector) (exporter : ExporterVal)
    (self : TruSession) (w : Process) (g : ref)
    (res : Resource) (procs : list SpanProcessor) :
  acceptable_exporter exporter ->
  provider_after_bootstrap w g res procs ->
  exists self' w',
    _set_up_otel_exporter connector exporter (self, w) = (Ok tt, (self', w'))
    /\ _experimental_otel_exporter self'
       = Some (effective_exporter connector exporter)
    /\ _experimental_tracer_provider self' = Some g
    /\ _experimental_otel_span_processor self'
       = Some (BatchSpanProcessor (effective_exporter connector exporter))
    /\ _TRACER_PROVIDER w' = Some g
    /\ heap w' !! g
       = Some (TracerProvider res
                 (procs ++ [BatchSpanProcessor (effective_exporter connector exporter)])).
Proof.
  intros Hacc Hboot.
  destruct (set_up_otel_exporter_success connector exporter self w g res procs
              Hacc Hboot) as (self' & w' & Hrun & _ & H).
  eauto.
Qed.

(** X11.  Set up twice in one process, the second exporter does not take
    the place of the first: both calls succeed, the provider created by the
    first call stays the global one, and it ends up with two batch
    processors, one per exporter, in call order, while the session keeps
    only the second exporter and the second processor. *)
Theorem set_up_otel_exporter_twice
    (connector1 connector2 : DBConnector) (exporter1 exporter2 : ExporterVal)
    (self : TruSession) (w : Process) :
  _TRACER_PROVIDER w = None ->
  acceptable_exporter exporter1 ->
  acceptable_exporter exporter2 ->
  exists self' w',
    (_set_up_otel_exporter connector1 exporter1;;
     _set_up_otel_exporter connector2 exporter2) (self, w) = (Ok tt, (self', w'))
    /\ _TRACER_PROVIDER w' = Some (next_ref w)
    /\ heap w' !! next_ref w
       = Some (TracerProvider trulens_resource
                 [BatchSpanProcessor (effective_exporter connector1 exporter1);
                  BatchSpanProcessor (effective_exporter connector2 exporter2)])
    /\ _experimental_tracer_provider self' = Some (next_ref w)
    /\ _experimental_otel_exporter self'
       = Some (effective_exporter connector2 exporter2)
    /\ _experimental_otel_span_processor self'
       = Some (BatchSpanProcessor (effective_exporter connector2 exporter2)).
Proof.
  intros Hnone Hacc1 Hacc2.
  destruct (set_up_otel_exporter_success connector1 exporter1 self w (next_ref w)
              trulens_resource [] Hacc1)
    as (self1 & w1 & Hrun1 & _ & _ & _ & _ & Hglobal1 & Hheap1).
  { left. auto. }
  destruct (set_up_otel_exporter_success connector2 exporter2 self1 w1 (next_ref w)
              trulens_resource
              [BatchSpanProcessor (effective_exporter connector1 exporter1)] Hacc2)
    as (self2 & w2 & Hrun2 & _ & Hexp2 & Htp2 & Hproc2 & Hglobal2 & Hheap2).
  { right. auto. }
  exists self2, w2. unfold mbind, M_bind, bind. rewrite Hrun1, Hrun2.
  repeat split; assumption.
Qed.

(** X12.  A failing bootstrap comes before the exporter check: with a
    foreign provider installed, [_set_up_otel_exporter] raises the
    bootstrap's [ValueError] for every exporter argument, valid or not; the
    flag is then set and frozen and the exporter in effect stored, but the
    session gets neither a tracer provider nor a span processor, and the
    installed provider is unchanged. *)
Theorem set_up_otel_exporter_bootstrap_fails
    (connector : DBConnector) (exporter : ExporterVal)
    (self : TruSession) (w : Process) (old : ref) (cls : string) :
  _TRACER_PROVIDER w = Some old ->
  heap w !! old = Some (ForeignProvider cls) ->
  exists self' w',
    _set_up_otel_exporter connector exporter (self, w)
      = (Raise (ValueError "Received a TracerProvider of an unexpected type!"),
         (self', w'))
    /\ experimental_flags self' OTEL_TRACING
       = {| flag_value := true; flag_frozen := true |}
    /\ _experimental_otel_exporter self'
       = Some (effective_exporter connector exporter)
    /\ _experimental_tracer_provider self' = _experimental_tracer_provider self
    /\ _experimental_otel_span_processor self'
       = _experimental_otel_span_processor self
    /\ _TRACER_PROVIDER w' = Some old
    /\ heap w' !! old = Some (ForeignProvider cls).
Proof.
  intros Hglobal Hold.
  rewrite set_up_otel_exporter_run; cbv zeta.
  set (w0 := (logger_info (exporter_log_line exporter) w).2).
  assert (Hold0 : heap w0 !! old = Some (ForeignProvider cls)) by exact Hold.
  rewrite Hglobal; cbn [default from_option id].
  rewrite (isinstance_after_set_up_old w0 old _ Hold0).
  eexists _, _. split; [reflexivity |].
  split; [reflexivity |]. split; [reflexivity |]. split; [reflexivity |].
  split; [reflexivity |].
  split.
  - change (_TRACER_PROVIDER (after_set_up w0))
      with (Some (default (next_ref w) (_TRACER_PROVIDER w))).
    by rewrite Hglobal.
  - by apply after_set_up_lookup_old.
Qed.

(** X13.  Whatever the outcome, [_set_up_otel_exporter] has by its end set
    and frozen the [OTEL_TRACING] flag, stored the exporter in effect, and
    logged exactly one line; the line names the class of the argument as
    passed, so it reads [NoneType] when the default exporter is used. *)
Theorem set_up_otel_exporter_always
    (connector : DBConnector) (exporter : ExporterVal)
    (self : TruSession) (w : Process) :
  exists r self' w',
    _set_up_otel_exporter connector exporter (self, w) = (r, (self', w'))
    /\ experimental_flags self' OTEL_TRACING
       = {| flag_value := true; flag_frozen := true |}
    /\ _experimental_otel_exporter self'
       = Some (effective_exporter connector exporter)
    /\ log_records w' = (log_records w ++ [exporter_log_line exporter])%list
    /\ (exporter = ENone ->
        exporter_log_line exporter
          = UNICODE_CHECK +:+ " OpenTelemetry exporter set: " +:+ class_name "NoneType"
        /\ effective_exporter connector exporter = TruLensOTELSpanExporter connector).
Proof.
  rewrite set_up_otel_exporter_run; cbv zeta.
  set (w0 := (logger_info (exporter_log_line exporter) w).2).
  assert (Hnone : exporter = ENone ->
          exporter_log_line exporter
            = UNICODE_CHECK +:+ " OpenTelemetry exporter set: " +:+ class_name "NoneType"
          /\ effective_exporter connector exporter = TruLensOTELSpanExporter connector)
    by (intros ->; split; reflexivity).
  destruct (isinstance_TracerProvider _ _).
  - destruct (andb _ _).
    + eexists _, _, _. split; [reflexivity |]. repeat split; try reflexivity; apply Hnone; done.
    + eexists _, _, _. split; [reflexivity |].
      split; [reflexivity |]. split; [reflexivity |].
      split; [| exact Hnone].
      unfold add_span_processor, modify; cbn [snd].
      destruct (heap (after_set_up w0) !! _) as [[]|]; reflexivity.
  - eexists _, _, _. split; [reflexivity |]. repeat split; try reflexivity; apply Hnone; done.
Qed.

End ExporterSetUpMore.

(** Witness for X10: [None] as exporter in a fresh process. *)
Lemma set_up_otel_exporter_registers_witness :
  Scenarios.acceptable_exporter Session.ENone
  /\ exists self' w',
       @Session._set_up_otel_exporter Samples.externals "db" Session.ENone
         (Samples.new_session, Samples.fresh_process) = (Ok tt, (self', w'))
       /\ Session.heap w' !! 1
          = Some (Session.TracerProvider (@Session.trulens_resource Samples.externals)
                    [Session.BatchSpanProcessor (Session.TruLensOTELSpanExporter "db")]).
Proof.
  assert (Hacc : Scenarios.acceptable_exporter Session.ENone) by (left; reflexivity).
  split; [exact Hacc |].
  destruct (@set_up_otel_exporter_registers Samples.externals "db" Session.ENone
              Samples.new_session Samples.fresh_process 1
              (@Session.trulens_resource Samples.externals) [] Hacc)
    as (self' & w' & Hrun & _ & _ & _ & _ & Hheap).
  { left. repeat split; reflexivity. }
  exists self', w'. split; [exact Hrun | exact Hheap].
Defined.

(** Witness for X11: the default exporter, then an in-memory one. *)
Lemma set_up_otel_exporter_twice_witness :
  exists self' w',
    (@Session._set_up_otel_exporter Samples.externals "db" Session.ENone;;
     @Session._set_up_otel_exporter Samples.externals "db" Samples.in_memory_exporter)
      (Samples.new_session, Samples.fresh_process) = (Ok tt, (self', w'))
    /\ Session.heap w' !! 1
       = Some (Session.TracerProvider (@Session.trulens_resource Samples.externals)
                 [Session.BatchSpanProcessor (Session.TruLensOTELSpanExporter "db");
                  Session.BatchSpanProcessor Samples.in_memory_exporter]).
Proof.
  destruct (@set_up_otel_exporter_twice Samples.externals "db" "db" Session.ENone
              Samples.in_memory_exporter Samples.new_session Samples.fresh_process
              eq_refl (or_introl eq_refl) (or_intror eq_refl))
    as (self' & w' & Hrun & _ & Hheap & _).
  exists self', w'. split; [exact Hrun | exact Hheap].
Defined.

(** Witness for X12: a valid exporter, a foreign provider installed. *)
Lemma set_up_otel_exporter_bootstrap_fails_witness :
  exists self' w',
    @Session._set_up_otel_exporter Samples.externals "db" Samples.in_memory_exporter
      (Samples.new_session, Samples.foreign_installed)
      = (Raise (ValueError "Received a TracerProvider of an unexpected type!"),
         (self', w'))
    /\ Session._experimental_otel_exporter self' = Some Samples.in_memory_exporter
    /\ Session._experimental_tracer_provider self' = None.
Proof.
  destruct (@set_up_otel_exporter_bootstrap_fails Samples.externals "db"
              Samples.in_memory_exporter Samples.new_session Samples.foreign_installed
              1 "NoOpTracerProvider" eq_refl eq_refl)
    as (self' & w' & Hrun & _ & Hexp & Htp & _).
  exists self', w'. split; [exact Hrun |]. split; [exact Hexp | exact Htp].
Defined.

(* --------------------------------------------------------------------- *)
(** ** Object types and Python equality                                   *)
(* --------------------------------------------------------------------- *)

Lemma is_valid_object_run (key : PyVal) :
  Enums.is_valid_object key = py_eq key (PyStr "EXTERNAL AGENT").
Proof.
  unfold Enums.is_valid_object, py_contains;
    cbn [fmap list_fmap snd existsb Enums.__members__].
  rewrite orb_false_r, py_eq_sym. destruct key; reflexivity.
Qed.

(** X14.  [ObjectType.is_valid_object] cannot tell apart two keys that
    Python's [==] identifies: the member [ObjectType.EXTERNAL_AGENT] and the
    plain string equal to it get the same answer, as do any two equal keys. *)
Theorem is_valid_object_respects_eq (a b : PyVal) :
  py_eq a b = true ->
  Enums.is_valid_object a = Enums.is_valid_object b.
Proof.
  rewrite !is_valid_object_run.
  destruct a, b; simpl; intros Heq; try discriminate; try reflexivity;
    apply bool_decide_eq_true in Heq; by subst.
Qed.

(** Witness for X14: the enum member and its value. *)
Lemma is_valid_object_respects_eq_witness :
  py_eq Enums.EXTERNAL_AGENT (PyStr "EXTERNAL AGENT") = true
  /\ Enums.is_valid_object Enums.EXTERNAL_AGENT
     = Enums.is_valid_object (PyStr "EXTERNAL AGENT")
  /\ Enums.is_valid_object Enums.EXTERNAL_AGENT = true.
Proof.
  split; [reflexivity |].
  split; [| reflexivity].
  exact (is_valid_object_respects_eq Enums.EXTERNAL_AGENT (PyStr "EXTERNAL AGENT")
           eq_refl).
Defined.

(* --------------------------------------------------------------------- *)
(** ** The unit test's [setUp], test after test                           *)
(* --------------------------------------------------------------------- *)

Section TestSetUp.
Import Session Scenarios.

Lemma setUp_installed (w : Process) (p : ref)
    (res : Resource) (procs : list SpanProcessor) :
  _TRACER_PROVIDER w = Some p ->
  heap w !! p = Some (TracerProvider res procs) ->
  exists w',
    Samples.setUp w = (Ok tt, w')
    /\ _TRACER_PROVIDER w' = Some p
    /\ heap w' !! p
       = Some (TracerProvider res
                 (procs ++ [SimpleSpanProcessor Samples.in_memory_exporter])).
Proof.
  intros Hglobal Hp.
  pose proof (after_set_up_lookup_old (ext := Samples.externals) w p _ Hp) as Hp'.
  assert (Hg' : _TRACER_PROVIDER (@after_set_up Samples.externals w) = Some p).
  { unfold after_set_up; simpl. by rewrite Hglobal. }
  unfold Samples.setUp, mbind, M_bind, bind.
  rewrite set_up_tracer_provider_run, Hglobal; cbn [default from_option id].
  rewrite (isinstance_after_set_up_old w p _ Hp).
  unfold get_tracer_provider, gets. rewrite Hg'; cbn [default from_option id].
  unfold add_span_processor, modify. rewrite Hp'.
  eexists. split; [reflexivity |].
  split; [exact Hg' |].
  unfold set_heap; cbn [heap]. apply lookup_insert_eq.
Qed.

Lemma repeat_setUp_installed (n : nat) (w : Process) (p : ref)
    (res : Resource) (procs : list SpanProcessor) :
  _TRACER_PROVIDER w = Some p ->
  heap w !! p = Some (TracerProvider res procs) ->
  exists w',
    repeat_call n Samples.setUp w = (Ok (replicate n tt), w')
    /\ _TRACER_PROVIDER w' = Some p
    /\ heap w' !! p
       = Some (TracerProvider res
                 (procs ++ replicate n (SimpleSpanProcessor Samples.in_memory_exporter))).
Proof.
  revert w procs. induction n as [|n IH]; intros w procs Hglobal Hp.
  - exists w. rewrite app_nil_r. repeat split; done.
  - destruct (setUp_installed w p res procs Hglobal Hp) as (w1 & Hrun1 & Hg1 & Hp1).
    destruct (IH w1 _ Hg1 Hp1) as (w' & Hrun & Hg' & Hp').
    exists w'. cbn [repeat_call]. unfold mbind, M_bind, bind.
    rewrite Hrun1, Hrun. split; [reflexivity |]. split; [exact Hg' |].
    rewrite Hp'. by rewrite <- app_assoc.
Qed.

(** X15.  Run before each of [n + 1] tests in one process, the unit test's
    [setUp] succeeds every time, but only the first run installs a
    provider: every later run adds its span processor to that same
    provider, which ends up with [n + 1] processors. *)
Theorem repeat_setUp_shares_provider (n : nat) (w : Process) :
  _TRACER_PROVIDER w = None ->
  exists w',
    repeat_call (S n) Samples.setUp w = (Ok (replicate (S n) tt), w')
    /\ _TRACER_PROVIDER w' = Some (next_ref w)
    /\ heap w' !! next_ref w
       = Some (TracerProvider (@trulens_resource Samples.externals)
                 (replicate (S n) (SimpleSpanProcessor Samples.in_memory_exporter))).
Proof.
  intros Hnone.
  assert (Hfirst : exists w1,
            Samples.setUp w = (Ok tt, w1)
            /\ _TRACER_PROVIDER w1 = Some (next_ref w)
            /\ heap w1 !! next_ref w
               = Some (TracerProvider (@trulens_resource Samples.externals)
                         [SimpleSpanProcessor Samples.in_memory_exporter])).
  { assert (Hg' : _TRACER_PROVIDER (@after_set_up Samples.externals w)
                  = Some (next_ref w)).
    { unfold after_set_up; simpl. by rewrite Hnone. }
    assert (Hp' : heap (@after_set_up Samples.externals w) !! next_ref w
                  = Some (TracerProvider (@trulens_resource Samples.externals) [])).
    { unfold after_set_up; simpl. apply lookup_insert_eq. }
    unfold Samples.setUp, mbind, M_bind, bind.
    rewrite set_up_tracer_provider_first by done.
    unfold get_tracer_provider, gets. rewrite Hg'; cbn [default from_option id].
    unfold add_span_processor, modify. rewrite Hp'.
    eexists. split; [reflexivity |]. split; [exact Hg' |].
    unfold set_heap; cbn [heap]. apply lookup_insert_eq. }
  destruct Hfirst as (w1 & Hrun1 & Hg1 & Hp1).
  destruct (repeat_setUp_installed n w1 _ _ _ Hg1 Hp1) as (w' & Hrun & Hg' & Hp').
  exists w'. cbn [repeat_call]. unfold mbind, M_bind, bind.
  rewrite Hrun1, Hrun. split; [reflexivity |]. split; [exact Hg' |].
  exact Hp'.
Qed.

End TestSetUp.

(** Witness for X15: two tests in a fresh process. *)
Lemma repeat_setUp_shares_provider_witness :
  Session._TRACER_PROVIDER Samples.fresh_process = None
  /\ exists w',
       Scenarios.repeat_call 2 Samples.setUp Samples.fresh_process = (Ok [tt; tt], w')
       /\ Session.heap w' !! 1
          = Some (Session.TracerProvider (@Session.trulens_resource Samples.externals)
                    [Session.SimpleSpanProcessor Samples.in_memory_exporter;
                     Session.SimpleSpanProcessor Samples.in_memory_exporter]).
Proof.
  split; [reflexivity |].
  destruct (repeat_setUp_shares_provider 1 Samples.fresh_process eq_refl)
    as (w' & Hrun & _ & Hheap).
  exists w'. split; [exact Hrun | exact Hheap].
Defined.

Section CostHookCount.
Import Scenarios.

(** Witness for X9: [Completions] is exposed by [openai] and by
    [openai.resources], and so is registered twice. *)
Lemma openai_registered_once_per_name_witness :
  Session.provider_importable Samples.openai_only Session.OpenAICostComputer
  /\ Session.provider_missing Samples.openai_only Session.CortexCostComputer
  /\ exists added,
       Session._track_costs Samples.openai_only [] = (Ok tt, added)
       /\ length (filter (fun r => Session.target_class r = Samples.Completions
                                   /\ Session.method_name r = "create") added) = 2.
Proof.
  assert (Himp : Session.provider_importable Samples.openai_only
                   Session.OpenAICostComputer)
    by (repeat constructor).
  assert (Hmiss : Session.provider_missing Samples.openai_only
                    Session.CortexCostComputer)
    by (eexists; reflexivity).
  split; [exact Himp |]. split; [exact Hmiss |].
  destruct (openai_registered_once_per_name Samples.openai_only Samples.Completions []
              Himp (or_intror Hmiss)) as (added & Hrun & Hcount).
  exists added. split; [exact Hrun | exact Hcount].
Defined.

End CostHookCount.
